(** * matthew-bot: platform classifier, quality menu and session handling

    A shallow embedding of [src/main.py] (classes [MediaDownloader] and
    [TelegramBot]) together with the properties of its natural-language
    specification.

    Conventions of the embedding:
    - Python [str] is [string], holding the UTF-8 encoding of the text:
      substring search, [replace] and [startswith] on the bytes agree with
      Python's on the text; a slice by characters counts the bytes that
      begin a character.  The library functions that depend on Unicode
      tables in the URL path ([str.lower], [str.strip]) and [urlparse] are
      taken from the environment.
    - Python [int] is [Z]; floating point values of the metadata are not
      modelled, numeric fields hold integers.
    - a dictionary field read with [dict.get] is a [pyfield]: the key may be
      missing, may hold [None], or may hold a value.
    - [self.user_sessions] is a [gmap Z session] keyed by the user id.
    - calls to the outside world (chat channel, yt-dlp, file system) are
      recorded in a trace; whether such a call raises is decided by an
      environment [env]; [Raised] stands for an exception leaving the
      function.
    - a handler runs from its first statement to its last without another
      handler of the same user running in between. *)

From Stdlib Require Import ZArith String Ascii List Lia Bool.
From stdpp Require Import base option list gmap strings pretty.

Import ListNotations.
Local Open Scope string_scope.
Local Open Scope Z_scope.

(** ** Results of code that may raise *)

Inductive outcome (A : Type) : Type :=
| Ok (a : A)
| Raised.
Arguments Ok {A} a.
Arguments Raised {A}.

(** ** Python strings *)

Module PyStr.

(** The ASCII part of [str.lower] and [str.upper]: the letters A-Z and
    a-z are mapped, every other byte is kept.  This is what Python does
    to ASCII text.  The source applies [upper] to a file extension and
    [lower] to a file path that is then compared with ASCII suffixes; the
    lower-casing of the network location of a URL, where letters outside
    ASCII matter, is not taken from here but from the environment. *)
Definition lower_char (c : ascii) : ascii :=
  let n := nat_of_ascii c in
  if ((65 <=? n) && (n <=? 90))%nat then ascii_of_nat (n + 32) else c.

Definition upper_char (c : ascii) : ascii :=
  let n := nat_of_ascii c in
  if ((97 <=? n) && (n <=? 122))%nat then ascii_of_nat (n - 32) else c.

Fixpoint map_chars (f : ascii -> ascii) (s : string) : string :=
  match s with
  | EmptyString => EmptyString
  | String c s' => String (f c) (map_chars f s')
  end.

(** [s.lower()], [s.upper()] *)
Definition lower : string -> string := map_chars lower_char.
Definition upper : string -> string := map_chars upper_char.

(** [s.startswith(p)] *)
Fixpoint startswith (p s : string) : bool :=
  match p, s with
  | EmptyString, _ => true
  | String a p', String b s' => if Ascii.eqb a b then startswith p' s' else false
  | String _ _, EmptyString => false
  end.

(** [sub in s] *)
Fixpoint contains (sub s : string) : bool :=
  startswith sub s ||
  match s with
  | EmptyString => false
  | String _ s' => contains sub s'
  end.

(** [s.replace(old, new)] for a non-empty [old]: the occurrences of [old]
    are found from left to right and do not overlap.  [skip] counts the
    characters of a matched occurrence that are still to be dropped. *)
Fixpoint replace_from (old new : string) (skip : nat) (s : string) : string :=
  match s with
  | EmptyString => EmptyString
  | String c s' =>
      match skip with
      | S k => replace_from old new k s'
      | O =>
          if startswith old s
          then new ++ replace_from old new (String.length old - 1) s'
          else String c (replace_from old new 0 s')
      end
  end.

Definition replace (old new s : string) : string := replace_from old new 0 s.

(** [s[:n]] *)
Fixpoint slice_to (n : nat) (s : string) : string :=
  match n, s with
  | S k, String c s' => String c (slice_to k s')
  | _, _ => EmptyString
  end.

(** A byte that continues a character of more than one byte. *)
Definition is_continuation (c : ascii) : bool :=
  let n := nat_of_ascii c in ((128 <=? n) && (n <=? 191))%nat.

(** [s[:n]] counted in characters: the bytes of the first [n] characters. *)
Fixpoint take_chars (n : nat) (s : string) : string :=
  match s with
  | EmptyString => EmptyString
  | String c s' =>
      if is_continuation c then String c (take_chars n s')
      else match n with
           | O => EmptyString
           | S k => String c (take_chars k s')
           end
  end.

(** [len(s)]: the number of characters. *)
Fixpoint char_length (s : string) : nat :=
  match s with
  | EmptyString => O
  | String c s' => if is_continuation c then char_length s' else S (char_length s')
  end.

(** [s[n:]] *)
Fixpoint slice_from (n : nat) (s : string) : string :=
  match n, s with
  | S k, String _ s' => slice_from k s'
  | _, _ => s
  end.

(** [s.strip()] on ASCII text: the ASCII characters for which
    [str.isspace] holds are removed from both ends.  Python removes the
    other Unicode white space too; the handler takes [str.strip] from the
    environment, and this function serves as its instance in examples
    with ASCII messages. *)
Definition is_space (c : ascii) : bool :=
  let n := nat_of_ascii c in
  (((9 <=? n) && (n <=? 13)) || ((28 <=? n) && (n <=? 32)))%nat.

Fixpoint lstrip (s : string) : string :=
  match s with
  | String c s' => if is_space c then lstrip s' else s
  | EmptyString => EmptyString
  end.

Fixpoint rev_onto (s acc : string) : string :=
  match s with
  | EmptyString => acc
  | String c s' => rev_onto s' (String c acc)
  end.

Definition rstrip (s : string) : string :=
  rev_onto (lstrip (rev_onto s EmptyString)) EmptyString.

(** [s.strip()] *)
Definition strip (s : string) : string := rstrip (lstrip s).

(** [s.find(c)] for a single character, [None] for -1. *)
Fixpoint find_char (c : ascii) (s : string) : option nat :=
  match s with
  | EmptyString => None
  | String a s' =>
      if Ascii.eqb a c then Some O else option_map S (find_char c s')
  end.

(** Comparison of strings as Python compares them: by code point,
    lexicographically ([a < b]). *)
Definition ltb (a b : string) : bool :=
  match String.compare a b with
  | Lt => true
  | _ => false
  end.

End PyStr.

(** ** [urllib.parse.urlparse(url).netloc]

    The standard library is not part of the repository.  The classifier is
    embedded over an arbitrary function giving the network location of a
    URL, or [None] when [urlparse] raises [ValueError].  [py_netloc] is
    the instance used in the examples, after CPython's [urlsplit]: strip
    leading control characters and spaces, drop tab, carriage return and
    line feed, split off a scheme, and if the rest starts with two slashes
    take the text up to the first slash, question mark or hash.  A
    network location with a bracket is answered [None]: CPython raises
    [ValueError] for it unless the brackets enclose an IP literal.  URLs
    with IP literals, and the check of non-ASCII network locations against
    their NFKC form, are outside this instance; the examples use neither. *)

Module UrlParse.

Definition is_alpha (c : ascii) : bool :=
  let n := nat_of_ascii c in
  (((65 <=? n) && (n <=? 90)) || ((97 <=? n) && (n <=? 122)))%nat.

Definition is_digit (c : ascii) : bool :=
  let n := nat_of_ascii c in ((48 <=? n) && (n <=? 57))%nat.

(** [scheme_chars]: letters, digits, plus, minus and dot. *)
Definition is_scheme_char (c : ascii) : bool :=
  is_alpha c || is_digit c
  || Ascii.eqb c "+" || Ascii.eqb c "-" || Ascii.eqb c ".".

Fixpoint all_chars (p : ascii -> bool) (s : string) : bool :=
  match s with
  | EmptyString => true
  | String c s' => p c && all_chars p s'
  end.

Fixpoint filter_chars (p : ascii -> bool) (s : string) : string :=
  match s with
  | EmptyString => EmptyString
  | String c s' => if p c then String c (filter_chars p s') else filter_chars p s'
  end.

(** [url.lstrip(_WHATWG_C0_CONTROL_OR_SPACE)] *)
Fixpoint lstrip_c0 (s : string) : string :=
  match s with
  | String c s' => if (nat_of_ascii c <=? 32)%nat then lstrip_c0 s' else s
  | EmptyString => EmptyString
  end.

Definition unsafe_byte (c : ascii) : bool :=
  let n := nat_of_ascii c in ((n =? 9) || (n =? 10) || (n =? 13))%nat.

(** Remove the scheme, when there is one. *)
Definition drop_scheme (url : string) : string :=
  match PyStr.find_char ":" url with
  | Some (S k) =>
      (* the colon is at index [S k], which is positive *)
      match url with
      | String c0 _ =>
          if is_alpha c0 && all_chars is_scheme_char (PyStr.slice_to (S k) url)
          then PyStr.slice_from (S (S k)) url
          else url
      | EmptyString => url
      end
  | _ => url
  end.

Definition is_delim (c : ascii) : bool :=
  Ascii.eqb c "/" || Ascii.eqb c "?" || Ascii.eqb c "#".

(** The text up to the first delimiter. *)
Fixpoint until_delim (s : string) : string :=
  match s with
  | EmptyString => EmptyString
  | String c s' => if is_delim c then EmptyString else String c (until_delim s')
  end.

Definition netloc_text (url : string) : string :=
  let url := filter_chars (fun c => negb (unsafe_byte c)) (lstrip_c0 url) in
  let rest := drop_scheme url in
  if PyStr.startswith "//" rest then until_delim (PyStr.slice_from 2 rest)
  else EmptyString.

Definition py_netloc (url : string) : option string :=
  let n := netloc_text url in
  if PyStr.contains "[" n || PyStr.contains "]" n then None else Some n.

End UrlParse.

(** ** [MediaDownloader.get_platform] *)

Module MediaDownloader.

(** [self.supported_platforms], in insertion order (the order in which a
    Python dict is iterated). *)
Definition supported_platforms : list (string * string) :=
  [ ("youtube.com", "YouTube");
    ("youtu.be", "YouTube");
    ("twitter.com", "Twitter/X");
    ("x.com", "Twitter/X");
    ("tiktok.com", "TikTok");
    ("newgrounds.com", "Newgrounds") ].

(** [parsed.netloc.lower().replace('www.', '')], with [lower] for
    [str.lower]. *)
Definition domain_of (lower : string -> string) (netloc : string) : string :=
  PyStr.replace "www." "" (lower netloc).

(** The loop over the table: the first entry whose key occurs in
    [domain] decides. *)
Fixpoint first_match (table : list (string * string)) (domain : string)
  : option string :=
  match table with
  | [] => None
  | (platform_domain, platform_name) :: rest =>
      if PyStr.contains platform_domain domain then Some platform_name
      else first_match rest domain
  end.

Section Classifier.
(** [urlparse(url).netloc], [None] when [urlparse] raises, and
    [str.lower]. *)
Variable netloc_of : string -> option string.
Variable lower : string -> string.

(** [get_platform(url)]: an exception of [urlparse] leaves the function;
    otherwise the result is a platform name or [None]. *)
Definition get_platform (url : string) : outcome (option string) :=
  match netloc_of url with
  | None => Raised
  | Some netloc => Ok (first_match supported_platforms (domain_of lower netloc))
  end.
End Classifier.

End MediaDownloader.

(** ** Metadata as yt-dlp hands it over *)

(** A key of a Python dict read with [dict.get]. *)
Inductive pyfield (A : Type) : Type :=
| Missing
| PyNone
| Val (a : A).
Arguments Missing {A}.
Arguments PyNone {A}.
Arguments Val {A} a.

(** [d.get(k)]: [None] stands for Python's [None]. *)
Definition get {A} (x : pyfield A) : option A :=
  match x with
  | Val a => Some a
  | _ => None
  end.

(** [d.get(k, default)] *)
Definition get_default {A} (x : pyfield A) (default : A) : option A :=
  match x with
  | Missing => Some default
  | PyNone => None
  | Val a => Some a
  end.

(** Truth value of an integer or [None]. *)
Definition truthy (v : option Z) : bool :=
  match v with
  | Some z => negb (z =? 0)
  | None => false
  end.

(** [a or b] *)
Definition py_or (a b : option Z) : option Z := if truthy a then a else b.

(** One entry of [info['formats']].  [format_id] is read with
    [f['format_id']] and [ext] is upper-cased, so both are strings when
    present; [ext] may be missing. *)
Record format : Type := {
  format_id : string;
  ext : option string;
  acodec : pyfield string;
  vcodec : pyfield string;
  abr : pyfield Z;
  height : pyfield Z;
  filesize : pyfield Z;
  filesize_approx : pyfield Z
}.

(** The metadata dictionary [info]. *)
Record info : Type := {
  title : option string;
  duration : pyfield Z;
  formats : option (list format)
}.

(** [MAX_FILE_SIZE = 2 * 1024 * 1024 * 1024] *)
Definition MAX_FILE_SIZE : Z := 2 * 1024 * 1024 * 1024.

(** ** Inline keyboards *)

Record button : Type := InlineKeyboardButton {
  text : string;
  callback_data : string
}.

(** [InlineKeyboardMarkup]: rows of buttons. *)
Definition keyboard : Type := list (list button).

(** ** Stable sort, as [list.sort(key=..., reverse=True)]

    Python's sort is stable also with [reverse=True]: elements with equal
    keys keep their order, the others are arranged by decreasing key. *)

Section Sort.
Context {A K : Type}.
Variable ltb : K -> K -> bool.
Variable key : A -> K.

(** [x] preceded everything in [l]; it goes before the first element
    whose key is not greater than its own. *)
Fixpoint insert_desc (x : A) (l : list A) : list A :=
  match l with
  | [] => [x]
  | y :: ys => if ltb (key x) (key y) then y :: insert_desc x ys else x :: l
  end.

Fixpoint sort_desc (l : list A) : list A :=
  match l with
  | [] => []
  | x :: xs => insert_desc x (sort_desc xs)
  end.
End Sort.

(** ** [TelegramBot.create_format_keyboard], [create_quality_keyboard] *)

Module Menu.

(** [f"{x:.1f}"] for [x = n / (1024 * 1024)]: the quotient of an integer
    below 2^53 by 2^20 is exact in binary floating point, and the
    conversion to one decimal rounds the exact value, ties to even. *)
Definition tenths_of_mb (n : Z) : Z :=
  let q := (n * 10) / 1048576 in
  let r := (n * 10) mod 1048576 in
  if (524288 <? r) || ((r =? 524288) && Z.odd q) then q + 1 else q.

Definition fmt_mb_abs (n : Z) : string :=
  let t := tenths_of_mb n in
  pretty (t / 10) ++ "." ++ pretty (t mod 10).

Definition fmt_mb (n : Z) : string :=
  if n <? 0 then "-" ++ fmt_mb_abs (- n) else fmt_mb_abs n.

(** [str(f.get('abr', 'Unknown'))] *)
Definition quality_str (f : format) : string :=
  match abr f with
  | Missing => "Unknown"
  | PyNone => "None"
  | Val z => pretty z
  end.

(** [f.get('ext', 'unknown').upper()] *)
Definition ext_upper (f : format) : string :=
  PyStr.upper (default "unknown" (ext f)).

(** [f.get('filesize') or f.get('filesize_approx', 0)] *)
Definition effective_filesize (f : format) : option Z :=
  py_or (get (filesize f)) (get_default (filesize_approx f) 0).

(** [filesize and filesize <= MAX_FILE_SIZE] *)
Definition size_ok (v : option Z) : bool :=
  truthy v && match v with Some z => z <=? MAX_FILE_SIZE | None => false end.

(** [f.get('acodec') != 'none' and f.get('vcodec') == 'none'] *)
Definition is_audio_only (f : format) : bool :=
  negb (bool_decide (get (acodec f) = Some "none"))
  && bool_decide (get (vcodec f) = Some "none").

(** [f.get('vcodec') != 'none'] *)
Definition has_video (f : format) : bool :=
  negb (bool_decide (get (vcodec f) = Some "none")).

Definition audio_button_text (f : format) (sz : Z) : string :=
  "🎵 " ++ ext_upper f ++ " - " ++ quality_str f ++ "kbps (" ++ fmt_mb sz ++ "MB)".

Definition video_button_text (f : format) (h sz : Z) : string :=
  "📹 " ++ pretty h ++ "p " ++ ext_upper f ++ " (" ++ fmt_mb sz ++ "MB)".

(** The loop filling [audio_formats] with pairs (button text, format id). *)
Fixpoint audio_formats (fs : list format) : list (string * string) :=
  match fs with
  | [] => []
  | f :: rest =>
      if is_audio_only f then
        match effective_filesize f with
        | Some sz =>
            if size_ok (Some sz)
            then (audio_button_text f sz, format_id f) :: audio_formats rest
            else audio_formats rest
        | None => audio_formats rest
        end
      else audio_formats rest
  end.

(** The loop filling [video_formats] with triples
    (button text, format id, height). *)
Fixpoint video_formats (fs : list format) : list (string * string * Z) :=
  match fs with
  | [] => []
  | f :: rest =>
      if has_video f then
        match effective_filesize f, get_default (height f) 0 with
        | Some sz, Some h =>
            if size_ok (Some sz) && truthy (Some h)
            then (video_button_text f h sz, format_id f, h) :: video_formats rest
            else video_formats rest
        | _, _ => video_formats rest
        end
      else video_formats rest
  end.

Definition download_button (label fid : string) : list button :=
  [InlineKeyboardButton label ("download_" ++ fid)].

Definition back_cancel_row : list button :=
  [InlineKeyboardButton "⬅ Back" "back"; InlineKeyboardButton "❌ Cancel" "cancel"].

(** The rows added for the chosen category, before the Back/Cancel row:
    [audio_formats.sort(key=lambda x: x[1], reverse=True)] and
    [video_formats.sort(key=lambda x: x[2], reverse=True)], each cut to
    five entries. *)
Definition quality_rows (i : info) (category : string) : keyboard :=
  let fs := default [] (formats i) in
  if String.eqb category "audio" then
    map (fun x => download_button (fst x) (snd x))
        (take 5 (sort_desc PyStr.ltb snd (audio_formats fs)))
  else if String.eqb category "video" then
    map (fun x => download_button (fst (fst x)) (snd (fst x)))
        (take 5 (sort_desc Z.ltb snd (video_formats fs)))
  else [].

Definition create_quality_keyboard (i : info) (category : string) : keyboard :=
  (quality_rows i category ++ [back_cancel_row])%list.

Definition create_format_keyboard (i : info) : keyboard :=
  [ [InlineKeyboardButton "🎵 Audio Only" "category_audio"];
    [InlineKeyboardButton "🎬 Video" "category_video"];
    [InlineKeyboardButton "❌ Cancel" "cancel"] ].

End Menu.

(** ** Sessions, the outside world and the handlers' effects *)

(** The value stored in [self.user_sessions[user_id]]. *)
Record session : Type := {
  url : string;
  s_info : info;
  platform : string
}.

(** What the handlers do that can be observed from outside, in order.  The
    user id stands for the chat or message the call is addressed to. *)
Inductive event : Type :=
| EvAnswer (uid : Z)                                   (* query.answer() *)
| EvReply (uid : Z) (txt : string)                     (* message.reply_text *)
| EvEdit (uid : Z) (txt : string) (markup : option keyboard)
                                                       (* edit_message_text, edit_text *)
| EvExtractInfo (u : string)                           (* get_video_info *)
| EvMkdtemp (dir : string)                             (* tempfile.mkdtemp *)
| EvDownload (u fid dir : string)                      (* download_media *)
| EvReplyAudio (uid : Z) (path caption ttl : string)   (* message.reply_audio *)
| EvReplyVideo (uid : Z) (path caption : string)       (* message.reply_video *)
| EvRmtree (dir : string)                              (* shutil.rmtree *)
| EvSessionStore (uid : Z)                             (* user_sessions[uid] = ... *)
| EvSessionDel (uid : Z).                              (* del user_sessions[uid] *)

(** The places where a call to the outside may raise. *)
Inductive site : Type :=
| AtReplyUnsupported | AtReplyProcessing | AtEditExtractFailed | AtEditMenu
| AtEditError
| AtReplyCancelled | AtReplyNoOperation
| AtAnswer | AtEditCancelled | AtEditExpired | AtEditBack | AtEditCategory
| AtEditDownloading | AtMkdtemp | AtEditFailed | AtGetsize | AtEditTooLarge
| AtEditUploading | AtOpen | AtReplyMedia | AtEditCompleted | AtEditHandler.

(** The behaviour of the collaborators during one handler run. *)
Record env : Type := {
  raises : site -> bool;                       (* does the call at this place raise *)
  netloc_of : string -> option string;         (* urlparse(url).netloc; None: ValueError *)
  str_lower : string -> string;                (* str.lower *)
  str_strip : string -> string;                (* str.strip *)
  extract_info : string -> option info;        (* get_video_info; None for an empty result *)
  mkdtemp_name : string;                       (* the directory mkdtemp creates *)
  download_result : string -> string -> string -> option string;
                                               (* download_media(url, format_id, dir) *)
  path_exists : string -> bool;                (* os.path.exists(filepath) *)
  getsize : string -> Z                        (* os.path.getsize(filepath) *)
}.

Record world : Type := {
  user_sessions : gmap Z session;
  tmp_dirs : gset string;
  trace : list event
}.

(** Computations over the world that may raise. *)
Definition M (A : Type) : Type := world -> outcome A * world.

Definition ret {A} (a : A) : M A := fun w => (Ok a, w).

Definition bind {A B} (m : M A) (k : A -> M B) : M B :=
  fun w =>
    match m w with
    | (Ok a, w') => k a w'
    | (Raised, w') => (Raised, w')
    end.

Declare Scope m_scope.
Delimit Scope m_scope with M.
Notation "'let*' x := m 'in' k" := (bind m (fun x => k))
  (at level 10, x name, m at level 100, k at level 200) : m_scope.
Notation "m >> k" := (bind m (fun _ => k))
  (at level 100, k at level 200, right associativity) : m_scope.

(** [try: body except Exception: handler] *)
Definition try_except {A} (body handler : M A) : M A :=
  fun w =>
    match body w with
    | (Ok a, w') => (Ok a, w')
    | (Raised, w') => handler w'
    end.

(** [try: body finally: fin]: [fin] runs on every way out of [body]; an
    exception of [body] is raised again afterwards. *)
Definition try_finally {A} (body : M A) (fin : M unit) : M A :=
  fun w =>
    match body w with
    | (r, w') =>
        match fin w' with
        | (Ok _, w'') => (r, w'')
        | (Raised, w'') => (Raised, w'')
        end
    end.

Definition log (e : event) : M unit :=
  fun w => (Ok tt, {| user_sessions := user_sessions w; tmp_dirs := tmp_dirs w;
                      trace := (trace w ++ [e])%list |}).

Definition read {A} (f : world -> A) : M A := fun w => (Ok (f w), w).

(** A call to the outside at place [st]: it raises, or it happens. *)
Definition call (e : env) (st : site) (ev : event) : M unit :=
  if raises e st then (fun w => (Raised, w)) else log ev.

(** [self.user_sessions[uid] = s] *)
Definition store_session (uid : Z) (s : session) : M unit :=
  fun w => (Ok tt, {| user_sessions := <[uid := s]> (user_sessions w);
                      tmp_dirs := tmp_dirs w;
                      trace := (trace w ++ [EvSessionStore uid])%list |}).

(** [if uid in self.user_sessions: del self.user_sessions[uid]], giving
    whether the entry was there. *)
Definition del_session_if_present (uid : Z) : M bool :=
  fun w =>
    match user_sessions w !! uid with
    | Some _ => (Ok true, {| user_sessions := delete uid (user_sessions w);
                             tmp_dirs := tmp_dirs w;
                             trace := (trace w ++ [EvSessionDel uid])%list |})
    | None => (Ok false, w)
    end.

(** [tempfile.mkdtemp()] *)
Definition mkdtemp (e : env) : M string :=
  if raises e AtMkdtemp then (fun w => (Raised, w))
  else fun w =>
    (Ok (mkdtemp_name e),
     {| user_sessions := user_sessions w;
        tmp_dirs := {[ mkdtemp_name e ]} ∪ tmp_dirs w;
        trace := (trace w ++ [EvMkdtemp (mkdtemp_name e)])%list |}).

(** [if os.path.exists(temp_dir): shutil.rmtree(temp_dir, ignore_errors=True)] *)
Definition rmtree_if_exists (dir : string) : M unit :=
  fun w =>
    if bool_decide (dir ∈ tmp_dirs w)
    then (Ok tt, {| user_sessions := user_sessions w;
                    tmp_dirs := tmp_dirs w ∖ {[ dir ]};
                    trace := (trace w ++ [EvRmtree dir])%list |})
    else (Ok tt, w).

(** ** The texts the bot sends *)

Module Msg.

Definition nl : string := String (ascii_of_nat 10) EmptyString.

Definition cancelled : string := "❌ Operation cancelled.".
Definition no_operation : string := "No operation to cancel.".
Definition session_expired : string := "❌ Session expired. Please send the URL again.".
Definition unsupported : string :=
  "❌ Unsupported platform. Please send a URL from:" ++ nl
  ++ "• YouTube" ++ nl ++ "• Twitter/X" ++ nl ++ "• TikTok" ++ nl ++ "• Newgrounds".
Definition processing (platform_name : string) : string :=
  "🔍 Processing " ++ platform_name ++ " URL..." ++ nl ++ "This may take a moment.".
Definition extract_failed : string := "❌ Failed to extract video information.".
Definition error_processing : string :=
  "❌ Error processing URL. Please try again or check if the URL is valid.".
Definition downloading : string := "⬇️ Downloading... Please wait.".
Definition download_failed : string := "❌ Download failed. Please try again.".
Definition uploading : string := "📤 Uploading to Telegram...".
Definition completed : string := "✅ Download completed!".

(** [f"❌ File too large ({file_size/(1024*1024):.1f}MB). Maximum allowed
    size is {MAX_FILE_SIZE/(1024*1024):.0f}MB."]; the rendering of the
    size is exact for sizes below 2^53 bytes. *)
Definition too_large (file_size : Z) : string :=
  "❌ File too large (" ++ Menu.fmt_mb file_size ++ "MB). Maximum allowed size is "
  ++ pretty (MAX_FILE_SIZE / (1024 * 1024)) ++ "MB.".

(** [info.get('title', 'Unknown Title')[:50]]: the first fifty
    characters. *)
Definition short_title (i : info) : string :=
  PyStr.take_chars 50 (default "Unknown Title" (title i)).

(** [f"{n:02d}"] for [0 <= n] *)
Definition pad2 (n : Z) : string :=
  if n <? 10 then "0" ++ pretty n else pretty n.

(** [f"{duration//60}:{duration%60:02d}" if duration else "Unknown"] *)
Definition duration_str (i : info) : string :=
  match get_default (duration i) 0 with
  | Some d => if truthy (Some d) then pretty (d / 60) ++ ":" ++ pad2 (d mod 60)
              else "Unknown"
  | None => "Unknown"
  end.

Definition format_menu (i : info) (platform_name : string) : string :=
  "📹 **" ++ short_title i ++ "**" ++ nl ++ nl
  ++ "🎬 Platform: " ++ platform_name ++ nl
  ++ "⏱ Duration: " ++ duration_str i ++ nl ++ nl
  ++ "Choose format and quality:".

Definition back_menu (i : info) : string :=
  "📹 **" ++ short_title i ++ "**" ++ nl ++ nl ++ "Choose format and quality:".

Definition quality_menu (i : info) (category : string) : string :=
  "📹 **" ++ short_title i ++ "**" ++ nl ++ nl ++ "Select "
  ++ (if String.eqb category "audio" then "Audio" else "Video") ++ " quality:".

(** [f"🎬 {title}\n🔗 From: {session['platform']}"] with
    [title = info.get('title', 'download')] *)
Definition caption (s : session) : string :=
  "🎬 " ++ default "download" (title (s_info s)) ++ nl
  ++ "🔗 From: " ++ platform s.

End Msg.

(** ** The handlers of [TelegramBot] *)

Module TelegramBot.

Import Menu.
Local Open Scope m_scope.

Section Handlers.
Variable e : env.

(** [cancel_operation]: the /cancel command. *)
Definition cancel_operation (uid : Z) : M unit :=
  let* present := del_session_if_present uid in
  if present : bool
  then call e AtReplyCancelled (EvReply uid Msg.cancelled)
  else call e AtReplyNoOperation (EvReply uid Msg.no_operation).

(** [downloader.get_video_info(url)]: it catches its own exceptions. *)
Definition get_video_info (u : string) : M (option info) :=
  log (EvExtractInfo u) >> ret (extract_info e u).

(** [handle_url]: a text message.  The classifier is called before the
    [try] statement: when [urlparse] raises, the exception leaves the
    handler and nothing has been sent. *)
Definition handle_url (uid : Z) (message_text : string) : M unit :=
  let u := str_strip e message_text in
  match MediaDownloader.get_platform (netloc_of e) (str_lower e) u with
  | Raised => fun w => (Raised, w)
  | Ok None => call e AtReplyUnsupported (EvReply uid Msg.unsupported)
  | Ok (Some platform_name) =>
      if String.eqb platform_name ""
      then call e AtReplyUnsupported (EvReply uid Msg.unsupported)
      else
        call e AtReplyProcessing (EvReply uid (Msg.processing platform_name)) >>
        try_except
          (let* i := get_video_info u in
           match i with
           | None => call e AtEditExtractFailed (EvEdit uid Msg.extract_failed None)
           | Some i =>
               store_session uid {| url := u; s_info := i; platform := platform_name |} >>
               call e AtEditMenu
                 (EvEdit uid (Msg.format_menu i platform_name)
                    (Some (create_format_keyboard i)))
           end)
          (call e AtEditError (EvEdit uid Msg.error_processing None))
  end.

(** [not filepath or not os.path.exists(filepath)] *)
Definition download_missing (filepath : option string) : bool :=
  match filepath with
  | None => true
  | Some p => String.eqb p "" || negb (path_exists e p)
  end.

(** [filepath.lower().endswith(('.mp3', '.m4a', '.wav', '.flac'))] *)
Definition is_audio_path (p : string) : bool :=
  let r := PyStr.rev_onto (PyStr.lower p) EmptyString in
  PyStr.startswith "3pm." r || PyStr.startswith "a4m." r
  || PyStr.startswith "vaw." r || PyStr.startswith "calf." r.

(** The body of the [try] statement of [download_and_send]. *)
Definition download_body (uid : Z) (s : session) (fid temp_dir : string) : M unit :=
  log (EvDownload (url s) fid temp_dir) >>
  let filepath := download_result e (url s) fid temp_dir in
  if download_missing filepath
  then call e AtEditFailed (EvEdit uid Msg.download_failed None)
  else
    let p := default "" filepath in
    let* file_size :=
      (if raises e AtGetsize then (fun w => (Raised, w)) else ret (getsize e p)) in
    if MAX_FILE_SIZE <? file_size
    then call e AtEditTooLarge (EvEdit uid (Msg.too_large file_size) None)
    else
      call e AtEditUploading (EvEdit uid Msg.uploading None) >>
      (if raises e AtOpen then (fun w => (Raised, w)) else ret tt) >>
      (if is_audio_path p
       then call e AtReplyMedia
              (EvReplyAudio uid p (Msg.caption s) (default "download" (title (s_info s))))
       else call e AtReplyMedia (EvReplyVideo uid p (Msg.caption s))) >>
      call e AtEditCompleted (EvEdit uid Msg.completed None).

(** The [finally] clause of [download_and_send]. *)
Definition download_cleanup (uid : Z) (temp_dir : string) : M unit :=
  rmtree_if_exists temp_dir >>
  let* _ := del_session_if_present uid in
  ret tt.

(** [download_and_send(query, session, format_id)], with [uid] the id
    of [query.from_user]. *)
Definition download_and_send (uid : Z) (s : session) (fid : string) : M unit :=
  call e AtEditDownloading (EvEdit uid Msg.downloading None) >>
  let* temp_dir := mkdtemp e in
  try_finally
    (try_except
       (download_body uid s fid temp_dir)
       (call e AtEditHandler (EvEdit uid Msg.download_failed None)))
    (download_cleanup uid temp_dir).

(** [handle_callback]: a button press carrying [data]. *)
Definition handle_callback (uid : Z) (data : string) : M unit :=
  call e AtAnswer (EvAnswer uid) >>
  if String.eqb data "cancel" then
    let* _ := del_session_if_present uid in
    call e AtEditCancelled (EvEdit uid Msg.cancelled None)
  else
    let* found := read (fun w => user_sessions w !! uid) in
    match found with
    | None => call e AtEditExpired (EvEdit uid Msg.session_expired None)
    | Some s =>
        let i := s_info s in
        if String.eqb data "back" then
          call e AtEditBack
            (EvEdit uid (Msg.back_menu i) (Some (create_format_keyboard i)))
        else if PyStr.startswith "category_" data then
          let category := PyStr.replace "category_" "" data in
          call e AtEditCategory
            (EvEdit uid (Msg.quality_menu i category)
               (Some (create_quality_keyboard i category)))
        else if PyStr.startswith "download_" data then
          download_and_send uid s (PyStr.replace "download_" "" data)
        else ret tt
    end.
End Handlers.

End TelegramBot.

(** ** Ghost definitions used to state the properties *)

(** The classifier as the specification words it: it looks at the host
    of the URL (the network location without user information and port),
    lowercased, from which only a leading [www.] label is removed.  Used
    on ASCII hosts without brackets. *)
Module ClassifierSpec.

(** The text after the last [@]. *)
Fixpoint drop_userinfo (netloc : string) : string :=
  match netloc with
  | EmptyString => EmptyString
  | String _ rest => if PyStr.contains "@" netloc then drop_userinfo rest else netloc
  end.

(** The text before the first colon. *)
Fixpoint drop_port (s : string) : string :=
  match s with
  | EmptyString => EmptyString
  | String c rest => if Ascii.eqb c ":" then EmptyString else String c (drop_port rest)
  end.

Definition host_of (netloc : string) : string := drop_port (drop_userinfo netloc).

Definition strip_leading_www (host : string) : string :=
  if PyStr.startswith "www." host then PyStr.slice_from 4 host else host.

Definition spec_domain_of (host : string) : string :=
  strip_leading_www (PyStr.lower host).

Definition spec_classify (host : string) : option string :=
  MediaDownloader.first_match MediaDownloader.supported_platforms (spec_domain_of host).

End ClassifierSpec.

(** The encodings behind the rows of a quality menu: the source keeps
    only the button text, the format id and (for video) the height of an
    encoding; [selected] keeps the encoding itself, filtered, ordered and
    cut in the same way.  [quality_rows_selected] below relates the two. *)
Module Ranking.

Import Menu.

Definition audio_ok (f : format) : bool :=
  is_audio_only f && size_ok (effective_filesize f).

Definition video_ok (f : format) : bool :=
  has_video f && size_ok (effective_filesize f) && truthy (get_default (height f) 0).

Definition height_of (f : format) : Z := default 0 (get_default (height f) 0).
Definition size_of (f : format) : Z := default 0 (effective_filesize f).

Definition audio_entry (f : format) : string * string :=
  (audio_button_text f (size_of f), format_id f).

Definition video_entry (f : format) : string * string * Z :=
  (video_button_text f (height_of f) (size_of f), format_id f, height_of f).

Definition selected_audio (fs : list format) : list format :=
  take 5 (sort_desc PyStr.ltb format_id (List.filter audio_ok fs)).

Definition selected_video (fs : list format) : list format :=
  take 5 (sort_desc Z.ltb height_of (List.filter video_ok fs)).

Definition selected (i : info) (category : string) : list format :=
  let fs := default [] (formats i) in
  if String.eqb category "audio" then selected_audio fs
  else if String.eqb category "video" then selected_video fs
  else [].

Definition row_of (category : string) (f : format) : list button :=
  if String.eqb category "audio"
  then download_button (audio_button_text f (size_of f)) (format_id f)
  else download_button (video_button_text f (height_of f) (size_of f)) (format_id f).

(** The rank key of the specification: the bitrate of an audio
    encoding. *)
Definition bitrate_of (f : format) : option Z := get (abr f).

(** Consecutive elements do not increase. *)
Fixpoint non_increasing (l : list Z) : Prop :=
  match l with
  | x :: (y :: _) as rest => y <= x /\ non_increasing rest
  | _ => True
  end.

End Ranking.

(** Concrete metadata used in the examples below: four audio-only
    encodings with the format ids YouTube gives them, and video encodings
    with and without a height. *)
Module Sample.

Definition audio (fid extension : string) (kbps bytes : Z) : format :=
  {| format_id := fid; ext := Some extension;
     acodec := Val "opus"; vcodec := Val "none";
     abr := Val kbps; height := PyNone;
     filesize := Val bytes; filesize_approx := Missing |}.

Definition video (fid : string) (h : pyfield Z) (bytes : pyfield Z) : format :=
  {| format_id := fid; ext := Some "mp4";
     acodec := Val "mp4a"; vcodec := Val "avc1";
     abr := Missing; height := h;
     filesize := bytes; filesize_approx := Missing |}.

Definition audio_info : info :=
  {| title := Some "Song"; duration := Val 215;
     formats := Some [ audio "139" "m4a" 48 1300000;
                       audio "140" "m4a" 128 3500000;
                       audio "249" "webm" 50 1400000;
                       audio "251" "webm" 160 4300000 ] |}.

Definition video_info : info :=
  {| title := Some "Clip"; duration := Val 61;
     formats := Some [ video "18" (Val 360) (Val 20000000);
                       video "hls-0" Missing (Val 30000000);
                       video "hls-1" (Val 0) (Val 30000000);
                       video "22" (Val 720) (Val 52428800);
                       video "137" (Val 1080) PyNone ] |}.

End Sample.

(** The menu state of the specification.  The source stores no menu state
    in the session; what the user is looking at is the keyboard of the last
    message edit addressed to them. *)
Module MenuState.

Inductive menu_state : Type :=
| AwaitingCategory
| AwaitingQuality
| NoMenu.

(** The keyboard left on screen by the last edit addressed to [uid]. *)
Definition last_markup (uid : Z) (tr : list event) : option keyboard :=
  fold_left
    (fun acc ev =>
       match ev with
       | EvEdit u _ m => if Z.eqb u uid then m else acc
       | _ => acc
       end)
    tr None.

(** The category menu is the keyboard whose first button is
    [category_audio]; the quality menus end with the Back/Cancel row. *)
Definition is_category_menu (kb : keyboard) : bool :=
  match kb with
  | (b :: _) :: _ => String.eqb (callback_data b) "category_audio"
  | _ => false
  end.

Definition menu_state_of (w : world) (uid : Z) : option menu_state :=
  match user_sessions w !! uid with
  | None => None
  | Some _ =>
      Some (match last_markup uid (trace w) with
            | Some kb => if is_category_menu kb then AwaitingCategory else AwaitingQuality
            | None => NoMenu
            end)
  end.

End MenuState.

(** Appending events to the trace of a world. *)
Definition emit (w : world) (evs : list event) : world :=
  {| user_sessions := user_sessions w; tmp_dirs := tmp_dirs w;
     trace := (trace w ++ evs)%list |}.

(** The events by which a file reaches the user. *)
Definition is_delivery (ev : event) : bool :=
  match ev with
  | EvReplyAudio _ _ _ _ | EvReplyVideo _ _ _ => true
  | _ => false
  end.

(** The events of the chat channel. *)
Definition is_channel (ev : event) : bool :=
  match ev with
  | EvAnswer _ | EvReply _ _ | EvEdit _ _ _
  | EvReplyAudio _ _ _ _ | EvReplyVideo _ _ _ => true
  | _ => false
  end.

(** Concrete environments and worlds for the examples. *)
Module Scenario.

Definition empty_world : world :=
  {| user_sessions := ∅; tmp_dirs := ∅; trace := [] |}.

(** Every call succeeds; the download produces a 50 MiB file. *)
Definition env_ok : env :=
  {| raises := fun _ => false;
     netloc_of := UrlParse.py_netloc;
     str_lower := PyStr.lower;
     str_strip := PyStr.strip;
     extract_info := fun _ => Some Sample.video_info;
     mkdtemp_name := "/tmp/tmpk3v9";
     download_result := fun _ _ dir => Some (dir ++ "/Clip.mp4");
     path_exists := fun _ => true;
     getsize := fun _ => 52428800 |}.

(** The downloaded file is larger than [MAX_FILE_SIZE]. *)
Definition env_oversize : env :=
  {| raises := fun _ => false;
     netloc_of := UrlParse.py_netloc;
     str_lower := PyStr.lower;
     str_strip := PyStr.strip;
     extract_info := fun _ => Some Sample.video_info;
     mkdtemp_name := "/tmp/tmpk3v9";
     download_result := fun _ _ dir => Some (dir ++ "/Clip.mp4");
     path_exists := fun _ => true;
     getsize := fun _ => 3221225472 |}.

(** Sending the file raises. *)
Definition env_delivery_raises : env :=
  {| raises := fun st => match st with AtReplyMedia => true | _ => false end;
     netloc_of := UrlParse.py_netloc;
     str_lower := PyStr.lower;
     str_strip := PyStr.strip;
     extract_info := fun _ => Some Sample.video_info;
     mkdtemp_name := "/tmp/tmpk3v9";
     download_result := fun _ _ dir => Some (dir ++ "/Clip.mp4");
     path_exists := fun _ => true;
     getsize := fun _ => 52428800 |}.

(** The first message edit of the download raises. *)
Definition env_edit_raises : env :=
  {| raises := fun st => match st with AtEditDownloading => true | _ => false end;
     netloc_of := UrlParse.py_netloc;
     str_lower := PyStr.lower;
     str_strip := PyStr.strip;
     extract_info := fun _ => Some Sample.video_info;
     mkdtemp_name := "/tmp/tmpk3v9";
     download_result := fun _ _ dir => Some (dir ++ "/Clip.mp4");
     path_exists := fun _ => true;
     getsize := fun _ => 52428800 |}.

Definition the_session : session :=
  {| url := "https://youtu.be/abc"; s_info := Sample.video_info; platform := "YouTube" |}.

(** User 7 has sent a URL and sees the category menu. *)
Definition started : world :=
  snd (TelegramBot.handle_url env_ok 7 " https://youtu.be/abc " empty_world).

(** User 7 then pressed the button of a quality although no category was
    chosen. *)
Definition pressed_download : world :=
  snd (TelegramBot.handle_callback env_ok 7 "download_22" started).

(** User 7 pressed Cancel on the category menu. *)
Definition cancelled : world :=
  snd (TelegramBot.handle_callback env_ok 7 "cancel" started).

End Scenario.

(** The encodings of the metadata that pass the filter of a category,
    in the order of the metadata. *)
Definition qualifies (category : string) (f : format) : bool :=
  if String.eqb category "audio" then Ranking.audio_ok f
  else if String.eqb category "video" then Ranking.video_ok f
  else false.

Definition qualifying (i : info) (category : string) : list format :=
  List.filter (qualifies category) (default [] (formats i)).

(** More concrete data for the examples: six video encodings that all
    pass the filter, and environments in which a step fails. *)
Module Sample2.

Definition six_video_info : info :=
  {| title := Some "Clip"; duration := Val 61;
     formats := Some [ Sample.video "160" (Val 144) (Val 1000000);
                       Sample.video "133" (Val 240) (Val 2000000);
                       Sample.video "134" (Val 360) (Val 3000000);
                       Sample.video "135" (Val 480) (Val 4000000);
                       Sample.video "136" (Val 720) (Val 5000000);
                       Sample.video "137" (Val 1080) (Val 6000000) ] |}.

(** The metadata cannot be extracted. *)
Definition env_no_info : env :=
  {| raises := fun _ => false;
     netloc_of := UrlParse.py_netloc;
     str_lower := PyStr.lower;
     str_strip := PyStr.strip;
     extract_info := fun _ => None;
     mkdtemp_name := "/tmp/tmpk3v9";
     download_result := fun _ _ dir => Some (dir ++ "/Clip.mp4");
     path_exists := fun _ => true;
     getsize := fun _ => 52428800 |}.

(** The download produces no file. *)
Definition env_no_file : env :=
  {| raises := fun _ => false;
     netloc_of := UrlParse.py_netloc;
     str_lower := PyStr.lower;
     str_strip := PyStr.strip;
     extract_info := fun _ => Some Sample.video_info;
     mkdtemp_name := "/tmp/tmpk3v9";
     download_result := fun _ _ _ => None;
     path_exists := fun _ => true;
     getsize := fun _ => 52428800 |}.

(** Showing the category menu raises. *)
Definition env_menu_raises : env :=
  {| raises := fun st => match st with AtEditMenu => true | _ => false end;
     netloc_of := UrlParse.py_netloc;
     str_lower := PyStr.lower;
     str_strip := PyStr.strip;
     extract_info := fun _ => Some Sample.video_info;
     mkdtemp_name := "/tmp/tmpk3v9";
     download_result := fun _ _ dir => Some (dir ++ "/Clip.mp4");
     path_exists := fun _ => true;
     getsize := fun _ => 52428800 |}.

End Sample2.

(** What the events [evs] of a download with result [r] may contain: at
    most one delivery; the completion message only after a delivery and
    with a normal return; a delivery only of the file the download
    produced, which exists and is not larger than [MAX_FILE_SIZE], sent as
    audio or as video by its extension. *)
Definition is_completed (ev : event) : bool :=
  match ev with
  | EvEdit _ txt _ => String.eqb txt Msg.completed
  | _ => false
  end.

Definition delivery_ok (e : env) (uid : Z) (s : session) (fid : string)
    (r : outcome unit) (evs : list event) : Prop :=
  (length (List.filter is_delivery evs) <= 1)%nat
  /\ (existsb is_completed evs = true ->
      r = Ok tt /\ exists ev, In ev evs /\ is_delivery ev = true)
  /\ (forall ev, In ev evs -> is_delivery ev = true ->
      exists p,
        download_result e (url s) fid (mkdtemp_name e) = Some p
        /\ TelegramBot.download_missing e (Some p) = false
        /\ getsize e p <= MAX_FILE_SIZE
        /\ ev = if TelegramBot.is_audio_path p
                then EvReplyAudio uid p (Msg.caption s)
                       (default "download" (title (s_info s)))
                else EvReplyVideo uid p (Msg.caption s)).

(** [key] occurs in [s] as a contiguous substring. *)
Definition occurs (key s : string) : Prop :=
  exists a b : string, s = a ++ key ++ b.

(** * Properties *)

(** ** Strings *)

Lemma startswith_iff (p s : string) :
  PyStr.startswith p s = true <-> exists t : string, s = p ++ t.
Proof.
  revert s; induction p as [|a p IH]; intros s; simpl.
  - split; [intros _; exists s; reflexivity | reflexivity].
  - destruct s as [|b s].
    + split; [discriminate | intros [t Ht]; discriminate].
    + destruct (Ascii.eqb_spec a b) as [->|Hne].
      * rewrite IH. split; intros [t Ht]; exists t.
        -- now rewrite Ht.
        -- now inversion Ht.
      * split; [discriminate | intros [t Ht]; simpl in Ht; inversion Ht; subst; now contradiction Hne].
Qed.

Lemma contains_iff (key s : string) :
  PyStr.contains key s = true <-> occurs key s.
Proof.
  unfold occurs. induction s as [|c s IH].
  - simpl. rewrite orb_false_r, startswith_iff. split.
    + intros [t Ht]. exists EmptyString, t. exact Ht.
    + intros [a [b Hab]]. destruct a; simpl in Hab.
      * exists b. exact Hab.
      * discriminate.
  - change (PyStr.contains key (String c s))
      with (PyStr.startswith key (String c s) || PyStr.contains key s).
    rewrite orb_true_iff, startswith_iff, IH. split.
    + intros [[t Ht] | [a [b Hab]]].
      * exists EmptyString, t. exact Ht.
      * exists (String c a), b. simpl. now rewrite Hab.
    + intros [a [b Hab]]. destruct a as [|c' a]; simpl in Hab.
      * left. exists b. exact Hab.
      * right. exists a, b. now inversion Hab.
Qed.

Lemma contains_false_iff (key s : string) :
  PyStr.contains key s = false <-> ~ occurs key s.
Proof.
  rewrite <- contains_iff. destruct (PyStr.contains key s); split; intros H; easy.
Qed.

(** ** Platform classifier *)

Lemma first_match_some (table : list (string * string)) (d name : string) :
  MediaDownloader.first_match table d = Some name <->
  exists pre key post,
    table = (pre ++ (key, name) :: post)%list
    /\ occurs key d
    /\ Forall (fun kv => ~ occurs (fst kv) d) pre.
Proof.
  induction table as [|[k n] rest IH]; simpl.
  - split; [discriminate|]. intros (pre & key & post & Heq & _).
    destruct pre; discriminate.
  - destruct (PyStr.contains k d) eqn:Hk.
    + split.
      * intros [= <-]. exists [], k, rest. repeat split; [now apply contains_iff | constructor].
      * intros (pre & key & post & Heq & Hocc & Hpre).
        destruct pre as [|[k' n'] pre]; simpl in Heq.
        -- now inversion Heq.
        -- inversion Heq; subst. inversion Hpre as [|? ? Hno _]; subst.
           simpl in Hno. apply contains_iff in Hk. contradiction.
    + rewrite IH. apply contains_false_iff in Hk. split.
      * intros (pre & key & post & Heq & Hocc & Hpre).
        exists ((k, n) :: pre), key, post. repeat split; [now rewrite Heq | exact Hocc |].
        constructor; [exact Hk | exact Hpre].
      * intros (pre & key & post & Heq & Hocc & Hpre).
        destruct pre as [|[k' n'] pre]; simpl in Heq.
        -- inversion Heq; subst. contradiction.
        -- inversion Heq; subst. inversion Hpre; subst.
           exists pre, key, post. repeat split; assumption.
Qed.

Lemma first_match_none (table : list (string * string)) (d : string) :
  MediaDownloader.first_match table d = None <->
  forall key name, In (key, name) table -> ~ occurs key d.
Proof.
  induction table as [|[k n] rest IH]; simpl.
  - split; [intros _ ? ? [] | reflexivity].
  - destruct (PyStr.contains k d) eqn:Hk.
    + split; [discriminate|]. intros H. apply contains_iff in Hk.
      exfalso. apply (H k n); [now left | exact Hk].
    + rewrite IH. apply contains_false_iff in Hk. split.
      * intros H key name [[= <- <-] | Hin]; [exact Hk | now apply (H key name)].
      * intros H key name Hin. apply (H key name). now right.
Qed.

(** C3, as the code has it: for a URL that [urlparse] accepts, the
    classifier returns, and it answers with the name of the first
    configured entry whose host substring occurs in the network location
    of the URL, lowercased and with every occurrence of [www.] removed;
    it answers [None] (unsupported) exactly when no configured substring
    occurs there.  [lower] is any function: the statement holds for
    Python's [str.lower]. *)
Theorem get_platform_first_occurrence
    (netloc : string -> option string) (lower : string -> string) (u n : string) :
  netloc u = Some n ->
  let d := PyStr.replace "www." "" (lower n) in
  (exists r, MediaDownloader.get_platform netloc lower u = Ok r)
  /\ (forall name,
        MediaDownloader.get_platform netloc lower u = Ok (Some name) <->
        exists pre key post,
          MediaDownloader.supported_platforms = (pre ++ (key, name) :: post)%list
          /\ occurs key d
          /\ Forall (fun kv => ~ occurs (fst kv) d) pre)
  /\ (MediaDownloader.get_platform netloc lower u = Ok None <->
      forall key name,
        In (key, name) MediaDownloader.supported_platforms -> ~ occurs key d).
Proof.
  intros Hn d. unfold MediaDownloader.get_platform. rewrite Hn.
  fold (MediaDownloader.domain_of lower n).
  change (MediaDownloader.domain_of lower n) with d.
  split; [eexists; reflexivity|]. split.
  - intros name. rewrite <- first_match_some. split; [intros [= H]; exact H | intros ->; reflexivity].
  - rewrite <- first_match_none. split; [intros [= H]; exact H | intros ->; reflexivity].
Qed.

Lemma get_platform_first_occurrence_witness :
  UrlParse.py_netloc "https://www.youtu.be/abc" = Some "www.youtu.be"
  /\ exists r,
       MediaDownloader.get_platform UrlParse.py_netloc PyStr.lower "https://www.youtu.be/abc"
       = Ok r.
Proof.
  split; [reflexivity|].
  exact (proj1 (get_platform_first_occurrence UrlParse.py_netloc PyStr.lower
                  "https://www.youtu.be/abc" "www.youtu.be" eq_refl)).
Defined.

(** C3, counterexample, at three URLs.
    - The host [x.www.com] has no leading [www.] label and contains none
      of the configured substrings, so the classifier of the specification
      answers unsupported; the code removes the inner [www.] and answers
      Twitter/X.
    - The host of [https://youtube.com@example.org/] is [example.org],
      which contains none of the configured substrings; the code looks at
      the network location, user information included, and answers
      YouTube.
    - For [https://[vimeo.com/] [urlparse] raises: the code does not
      answer unsupported, the exception leaves [get_platform]. *)
Lemma get_platform_differs_from_spec :
  (UrlParse.py_netloc "https://x.www.com/" = Some "x.www.com"
   /\ ClassifierSpec.host_of "x.www.com" = "x.www.com"
   /\ (forall key name,
          In (key, name) MediaDownloader.supported_platforms ->
          PyStr.contains key (ClassifierSpec.spec_domain_of "x.www.com") = false)
   /\ ClassifierSpec.spec_classify "x.www.com" = None
   /\ MediaDownloader.get_platform UrlParse.py_netloc PyStr.lower "https://x.www.com/"
      = Ok (Some "Twitter/X"))
  /\ (UrlParse.py_netloc "https://youtube.com@example.org/" = Some "youtube.com@example.org"
      /\ ClassifierSpec.host_of "youtube.com@example.org" = "example.org"
      /\ ClassifierSpec.spec_classify "example.org" = None
      /\ MediaDownloader.get_platform UrlParse.py_netloc PyStr.lower
           "https://youtube.com@example.org/"
         = Ok (Some "YouTube"))
  /\ (UrlParse.py_netloc "https://[vimeo.com/" = None
      /\ MediaDownloader.get_platform UrlParse.py_netloc PyStr.lower "https://[vimeo.com/"
         = Raised
      /\ MediaDownloader.get_platform UrlParse.py_netloc PyStr.lower "https://[vimeo.com/"
         <> Ok None).
Proof.
  split; [|split].
  - repeat split.
    intros key name Hin. simpl in Hin.
    repeat (destruct Hin as [[= <- <-] | Hin]; [reflexivity|]).
    destruct Hin.
  - repeat split.
  - split; [reflexivity|]. split; [reflexivity | discriminate].
Qed.

Example get_platform_youtu_be :
  MediaDownloader.get_platform UrlParse.py_netloc PyStr.lower "https://www.youtu.be/abc"
  = Ok (Some "YouTube").
Proof. reflexivity. Qed.

Example get_platform_vimeo :
  MediaDownloader.get_platform UrlParse.py_netloc PyStr.lower "https://vimeo.com/x" = Ok None.
Proof. reflexivity. Qed.

Example get_platform_no_scheme :
  MediaDownloader.get_platform UrlParse.py_netloc PyStr.lower "www.youtube.com/watch?v=abc"
  = Ok None.
Proof. reflexivity. Qed.

Example get_platform_port :
  MediaDownloader.get_platform UrlParse.py_netloc PyStr.lower "https://m.youtube.com:443/watch"
  = Ok (Some "YouTube").
Proof. reflexivity. Qed.

(** ** Quality menu *)

Section SortFacts.
Context {A K : Type}.
Variable ltb : K -> K -> bool.
Variable key : A -> K.

Lemma insert_desc_In (x y : A) (l : list A) :
  In y (insert_desc ltb key x l) <-> y = x \/ In y l.
Proof.
  induction l as [|z l IH]; simpl.
  - intuition.
  - destruct (ltb (key x) (key z)); simpl; rewrite ?IH; intuition.
Qed.

Lemma sort_desc_In (y : A) (l : list A) :
  In y (sort_desc ltb key l) <-> In y l.
Proof.
  induction l as [|x l IH]; simpl; [reflexivity|].
  rewrite insert_desc_In, IH. intuition.
Qed.

Lemma insert_desc_length (x : A) (l : list A) :
  length (insert_desc ltb key x l) = S (length l).
Proof.
  induction l as [|z l IH]; simpl; [reflexivity|].
  destruct (ltb (key x) (key z)); simpl; [now rewrite IH | reflexivity].
Qed.

Lemma sort_desc_length (l : list A) :
  length (sort_desc ltb key l) = length l.
Proof.
  induction l as [|x l IH]; simpl; [reflexivity|].
  now rewrite insert_desc_length, IH.
Qed.
End SortFacts.

(** Sorting commutes with a map that preserves the keys. *)
Lemma sort_desc_map {A B K : Type} (ltb : K -> K -> bool)
    (key : B -> K) (g : A -> B) (l : list A) :
  sort_desc ltb key (map g l) = map g (sort_desc ltb (fun a => key (g a)) l).
Proof.
  assert (Hins : forall x l',
    insert_desc ltb key (g x) (map g l')
    = map g (insert_desc ltb (fun a => key (g a)) x l')).
  { intros x l'. induction l' as [|z l' IH]; simpl; [reflexivity|].
    destruct (ltb (key (g x)) (key (g z))); simpl; [now rewrite IH | reflexivity]. }
  induction l as [|x l IH]; simpl; [reflexivity|].
  now rewrite IH, Hins.
Qed.

(** Sorting by an integer key leaves the keys in non-increasing order. *)
Lemma insert_desc_non_increasing {A : Type} (key : A -> Z) (x : A) (l : list A) :
  Ranking.non_increasing (map key l) ->
  Ranking.non_increasing (map key (insert_desc Z.ltb key x l)).
Proof.
  induction l as [|y l IH]; intros Hl; simpl; [exact I|].
  destruct (Z.ltb_spec (key x) (key y)) as [Hlt|Hge].
  - destruct l as [|z l]; simpl in *.
    + split; [lia | exact I].
    + destruct Hl as [Hzy Hl]. specialize (IH Hl).
      destruct (Z.ltb_spec (key x) (key z)); simpl in *; split; try lia; exact IH.
  - simpl. split; [lia | exact Hl].
Qed.

Lemma sort_desc_non_increasing {A : Type} (key : A -> Z) (l : list A) :
  Ranking.non_increasing (map key (sort_desc Z.ltb key l)).
Proof.
  induction l as [|x l IH]; simpl; [exact I|].
  now apply insert_desc_non_increasing.
Qed.

Lemma take_non_increasing (n : nat) (l : list Z) :
  Ranking.non_increasing l -> Ranking.non_increasing (take n l).
Proof.
  revert n; induction l as [|x l IH]; intros n Hl; destruct n as [|n]; try exact I.
  destruct l as [|y l]; [destruct n; exact I|].
  destruct Hl as [Hxy Hl]. specialize (IH n Hl).
  destruct n as [|n]; [exact I|].
  split; [exact Hxy | exact IH].
Qed.

Lemma audio_formats_filter (fs : list format) :
  Menu.audio_formats fs = map Ranking.audio_entry (List.filter Ranking.audio_ok fs).
Proof.
  induction fs as [|f fs IH]; simpl; [reflexivity|].
  unfold Ranking.audio_ok at 1.
  destruct (Menu.is_audio_only f); simpl; [|exact IH].
  destruct (Menu.effective_filesize f) as [sz|] eqn:E; simpl; [|exact IH].
  destruct (Menu.size_ok (Some sz)); simpl; [|exact IH].
  replace (Ranking.audio_entry f) with (Menu.audio_button_text f sz, format_id f)
    by (unfold Ranking.audio_entry, Ranking.size_of; now rewrite E).
  now rewrite IH.
Qed.

Lemma video_formats_filter (fs : list format) :
  Menu.video_formats fs = map Ranking.video_entry (List.filter Ranking.video_ok fs).
Proof.
  induction fs as [|f fs IH]; simpl; [reflexivity|].
  unfold Ranking.video_ok at 1.
  destruct (Menu.has_video f); simpl; [|exact IH].
  destruct (Menu.effective_filesize f) as [sz|] eqn:E; simpl; [|exact IH].
  destruct (get_default (height f) 0) as [h|] eqn:Eh; simpl.
  - destruct (Menu.size_ok (Some sz) && _); simpl; [|exact IH].
    replace (Ranking.video_entry f) with (Menu.video_button_text f h sz, format_id f, h)
      by (unfold Ranking.video_entry, Ranking.size_of, Ranking.height_of; now rewrite E, Eh).
    now rewrite IH.
  - rewrite andb_false_r. exact IH.
Qed.

(** The rows of the menu are the rows of the selected encodings. *)
Lemma quality_rows_selected (i : info) (category : string) :
  Menu.quality_rows i category = map (Ranking.row_of category) (Ranking.selected i category).
Proof.
  unfold Menu.quality_rows, Ranking.selected, Ranking.row_of.
  destruct (String.eqb category "audio") eqn:Ha.
  - rewrite audio_formats_filter, sort_desc_map, firstn_map, map_map. reflexivity.
  - destruct (String.eqb category "video") eqn:Hv; [|reflexivity].
    rewrite video_formats_filter, sort_desc_map, firstn_map, map_map. reflexivity.
Qed.

Lemma selected_length (i : info) (category : string) :
  (length (Ranking.selected i category) <= 5)%nat.
Proof.
  unfold Ranking.selected, Ranking.selected_audio, Ranking.selected_video.
  destruct (String.eqb category "audio"); [apply firstn_le_length|].
  destruct (String.eqb category "video"); [apply firstn_le_length | simpl; lia].
Qed.

Lemma In_take {A : Type} (n : nat) (x : A) (l : list A) : In x (take n l) -> In x l.
Proof.
  revert l; induction n as [|n IH]; intros [|y l]; simpl; try tauto.
  intros [->|H]; [now left | right; now apply IH].
Qed.

(** Every selected encoding comes from the metadata and passed the filter
    of its category. *)
Lemma selected_inv (i : info) (category : string) (f : format) :
  In f (Ranking.selected i category) ->
  In f (default [] (formats i))
  /\ ((category = "audio" /\ Ranking.audio_ok f = true)
      \/ (category = "video" /\ Ranking.video_ok f = true)).
Proof.
  unfold Ranking.selected, Ranking.selected_audio, Ranking.selected_video.
  destruct (String.eqb_spec category "audio") as [->|Ha].
  - intros H. apply In_take, sort_desc_In, filter_In in H. tauto.
  - destruct (String.eqb_spec category "video") as [->|Hv]; [|intros []].
    intros H. apply In_take, sort_desc_In, filter_In in H. tauto.
Qed.

Lemma size_ok_inv (v : option Z) :
  Menu.size_ok v = true -> exists sz, v = Some sz /\ sz <> 0 /\ sz <= MAX_FILE_SIZE.
Proof.
  unfold Menu.size_ok, truthy. destruct v as [sz|]; [|discriminate].
  intros H. apply andb_true_iff in H as [Hnz Hle].
  exists sz. repeat split; [|lia].
  intros ->. discriminate.
Qed.

(** Supporting fact for C1: the video menu is ordered by height,
    non-increasing, as the comment of the source says. *)
Lemma video_menu_sorted_by_height (i : info) :
  Ranking.non_increasing (map Ranking.height_of (Ranking.selected i "video")).
Proof.
  unfold Ranking.selected, Ranking.selected_video. simpl.
  rewrite <- firstn_map. apply take_non_increasing, sort_desc_non_increasing.
Qed.

(** C1, at the failing input: the audio menu is ordered by format id, not
    by bitrate.  For the four audio encodings of [Sample.audio_info] the
    rows come out with bitrates 160, 50, 128, 48: the row of 50 kbps
    stands before the row of 128 kbps. *)
Theorem audio_menu_ordered_by_format_id_not_bitrate :
  Menu.create_quality_keyboard Sample.audio_info "audio"
  = [ [InlineKeyboardButton "🎵 WEBM - 160kbps (4.1MB)" "download_251"];
      [InlineKeyboardButton "🎵 WEBM - 50kbps (1.3MB)" "download_249"];
      [InlineKeyboardButton "🎵 M4A - 128kbps (3.3MB)" "download_140"];
      [InlineKeyboardButton "🎵 M4A - 48kbps (1.2MB)" "download_139"];
      Menu.back_cancel_row ]
  /\ map Ranking.bitrate_of (Ranking.selected Sample.audio_info "audio")
     = [Some 160; Some 50; Some 128; Some 48]
  /\ ~ Ranking.non_increasing [160; 50; 128; 48].
Proof.
  split; [vm_compute; reflexivity|].
  split; [vm_compute; reflexivity|].
  simpl. lia.
Qed.

(** C4: a quality menu has at most five rows besides the Back/Cancel row;
    each of them is the row of an encoding of the metadata whose size is
    known, not zero and at most [MAX_FILE_SIZE]; an encoding without a
    size is behind no row. *)
Theorem quality_menu_bounded_and_sized (i : info) (category : string) :
  Menu.create_quality_keyboard i category
  = (map (Ranking.row_of category) (Ranking.selected i category)
       ++ [Menu.back_cancel_row])%list
  /\ (length (Menu.quality_rows i category) <= 5)%nat
  /\ (forall f, In f (Ranking.selected i category) ->
        In f (default [] (formats i))
        /\ exists sz, Menu.effective_filesize f = Some sz
                      /\ sz <> 0 /\ sz <= MAX_FILE_SIZE)
  /\ (forall f, truthy (Menu.effective_filesize f) = false ->
        ~ In f (Ranking.selected i category))
  /\ (forall f, get (filesize f) = None -> get (filesize_approx f) = None ->
        ~ In f (Ranking.selected i category)).
Proof.
  assert (Hsel : forall f, In f (Ranking.selected i category) ->
            In f (default [] (formats i))
            /\ exists sz, Menu.effective_filesize f = Some sz
                          /\ sz <> 0 /\ sz <= MAX_FILE_SIZE).
  { intros f Hf. apply selected_inv in Hf as [Hin Hok]. split; [exact Hin|].
    apply size_ok_inv.
    destruct Hok as [[_ Hok] | [_ Hok]].
    - unfold Ranking.audio_ok in Hok. now apply andb_true_iff in Hok as [_ Hok].
    - unfold Ranking.video_ok in Hok.
      apply andb_true_iff in Hok as [Hok _]. now apply andb_true_iff in Hok as [_ Hok]. }
  assert (Hno : forall f, truthy (Menu.effective_filesize f) = false ->
            ~ In f (Ranking.selected i category)).
  { intros f Hf Hin. apply Hsel in Hin as [_ (sz & Hsz & Hnz & _)].
    rewrite Hsz in Hf. simpl in Hf. apply negb_false_iff, Z.eqb_eq in Hf. contradiction. }
  split; [|split; [|split; [exact Hsel | split; [exact Hno|]]]].
  - unfold Menu.create_quality_keyboard. now rewrite quality_rows_selected.
  - rewrite quality_rows_selected, length_map. apply selected_length.
  - intros f Hfs Hap. apply Hno.
    unfold Menu.effective_filesize, py_or. rewrite Hfs. simpl.
    destruct (filesize_approx f); simpl in *; [reflexivity | reflexivity | discriminate].
Qed.

(** C9: behind every row of the video menu is an encoding whose height is
    present and not zero; an encoding with a video stream and an
    acceptable size whose height is missing, [None] or zero has no row. *)
Theorem video_menu_requires_height (i : info) :
  Menu.quality_rows i "video"
  = map (Ranking.row_of "video") (Ranking.selected i "video")
  /\ (forall f, In f (Ranking.selected i "video") ->
        exists h, height f = Val h /\ h <> 0)
  /\ (forall f, Menu.has_video f = true ->
        Menu.size_ok (Menu.effective_filesize f) = true ->
        height f = Missing \/ height f = PyNone \/ height f = Val 0 ->
        ~ In f (Ranking.selected i "video")).
Proof.
  assert (Hsel : forall f, In f (Ranking.selected i "video") ->
            exists h, height f = Val h /\ h <> 0).
  { intros f Hf. apply selected_inv in Hf as [_ [[Hc _] | [_ Hok]]]; [discriminate|].
    unfold Ranking.video_ok in Hok. apply andb_true_iff in Hok as [_ Hh].
    destruct (height f) as [| |h]; simpl in Hh; try discriminate.
    exists h. split; [reflexivity|]. intros ->. discriminate. }
  split; [apply quality_rows_selected|]. split; [exact Hsel|].
  intros f _ _ Hh Hin. apply Hsel in Hin as (h & Hv & Hnz).
  destruct Hh as [Hh | [Hh | Hh]]; rewrite Hh in Hv; try discriminate.
  inversion Hv; subst. contradiction.
Qed.

Example video_menu_sample :
  Menu.create_quality_keyboard Sample.video_info "video"
  = [ [InlineKeyboardButton "📹 720p MP4 (50.0MB)" "download_22"];
      [InlineKeyboardButton "📹 360p MP4 (19.1MB)" "download_18"];
      Menu.back_cancel_row ].
Proof. vm_compute. reflexivity. Qed.

Example unknown_category_menu :
  Menu.create_quality_keyboard Sample.video_info "other" = [Menu.back_cancel_row].
Proof. reflexivity. Qed.

(** ** Handlers: basic steps *)

Lemma emit_emit (w : world) (a b : list event) :
  emit (emit w a) b = emit w (a ++ b)%list.
Proof. unfold emit; simpl. now rewrite <- app_assoc. Qed.

Lemma log_emit (ev : event) (w : world) : log ev w = (Ok tt, emit w [ev]).
Proof. reflexivity. Qed.

Lemma call_ok (e : env) (st : site) (ev : event) (w : world) :
  raises e st = false -> call e st ev w = (Ok tt, emit w [ev]).
Proof. intros H. unfold call. now rewrite H. Qed.

Lemma call_raised (e : env) (st : site) (ev : event) (w : world) :
  raises e st = true -> call e st ev w = (Raised, w).
Proof. intros H. unfold call. now rewrite H. Qed.

(** A call changes nothing but the trace, to which it adds at most its
    own event. *)
Lemma call_shape (e : env) (st : site) (ev : event) (w : world) :
  exists r evs, call e st ev w = (r, emit w evs) /\ (evs = [] \/ evs = [ev]).
Proof.
  unfold call. destruct (raises e st).
  - exists Raised, []. split; [|now left].
    unfold emit. rewrite app_nil_r. now destruct w.
  - exists (Ok tt), [ev]. split; [reflexivity | now right].
Qed.

(** The [finally] clause never raises; it removes the directory and the
    session of the user, in this order. *)
Lemma download_cleanup_spec (e : env) (uid : Z) (d : string) (w : world) :
  TelegramBot.download_cleanup uid d w
  = (Ok tt,
     {| user_sessions := delete uid (user_sessions w);
        tmp_dirs := tmp_dirs w ∖ {[ d ]};
        trace := (trace w
                  ++ (if bool_decide (d ∈ tmp_dirs w) then [EvRmtree d] else [])
                  ++ (match user_sessions w !! uid with
                      | Some _ => [EvSessionDel uid]
                      | None => []
                      end))%list |}).
Proof.
  unfold TelegramBot.download_cleanup, bind, rmtree_if_exists, del_session_if_present, ret.
  destruct (bool_decide (d ∈ tmp_dirs w)) eqn:Hd; simpl.
  - destruct (user_sessions w !! uid) eqn:Hs; simpl.
    + now rewrite <- app_assoc.
    + now rewrite (delete_id _ _ Hs).
  - apply bool_decide_eq_false in Hd.
    assert (Hset : tmp_dirs w ∖ {[ d ]} = tmp_dirs w).
    { apply set_eq. intros x. rewrite elem_of_difference, elem_of_singleton.
      split; [tauto | intros Hx; split; [exact Hx | congruence]]. }
    rewrite Hset.
    destruct (user_sessions w !! uid) eqn:Hs; simpl.
    + reflexivity.
    + rewrite (delete_id _ _ Hs), app_nil_r. now destruct w.
Qed.

(** The guarded part of the download ([try] with its [except] clause)
    leaves sessions and directories alone; it records the download and
    then only talks to the chat channel. *)
Lemma guarded_body_shape (e : env) (uid : Z) (s : session) (fid d : string) (w : world) :
  exists r mid,
    try_except (TelegramBot.download_body e uid s fid d)
               (call e AtEditHandler (EvEdit uid Msg.download_failed None)) w
    = (r, emit w (EvDownload (url s) fid d :: mid))
    /\ Forall (fun ev => is_channel ev = true) mid.
Proof.
  unfold try_except, TelegramBot.download_body, bind, call, log, ret.
  destruct (TelegramBot.download_missing e _);
    [|destruct (raises e AtGetsize); [|destruct (MAX_FILE_SIZE <? _);
      [|destruct (raises e AtEditUploading); [|destruct (raises e AtOpen);
        [|destruct (TelegramBot.is_audio_path _); (destruct (raises e AtReplyMedia);
          [|destruct (raises e AtEditCompleted)])]]]]];
    try destruct (raises e AtEditFailed); try destruct (raises e AtEditTooLarge);
    simpl; try destruct (raises e AtEditHandler); simpl;
    eexists _, _; (split;
      [unfold emit; simpl; rewrite <- ?app_assoc; simpl; reflexivity
      | repeat constructor]).
Qed.

(** Once the first edit and [mkdtemp] have succeeded, every way through
    [download_and_send] ends with the directory removed and the session of
    the user deleted. *)
Lemma download_and_send_begun (e : env) (uid : Z) (s : session) (fid : string) (w : world) :
  raises e AtEditDownloading = false ->
  raises e AtMkdtemp = false ->
  exists r mid,
    TelegramBot.download_and_send e uid s fid w
    = (r,
       {| user_sessions := delete uid (user_sessions w);
          tmp_dirs := ({[ mkdtemp_name e ]} ∪ tmp_dirs w) ∖ {[ mkdtemp_name e ]};
          trace := (trace w
                    ++ [EvEdit uid Msg.downloading None; EvMkdtemp (mkdtemp_name e);
                        EvDownload (url s) fid (mkdtemp_name e)]
                    ++ mid
                    ++ [EvRmtree (mkdtemp_name e)]
                    ++ (match user_sessions w !! uid with
                        | Some _ => [EvSessionDel uid]
                        | None => []
                        end))%list |})
    /\ Forall (fun ev => is_channel ev = true) mid.
Proof.
  intros Hedit Hmk.
  unfold TelegramBot.download_and_send, bind, mkdtemp.
  rewrite (call_ok _ _ _ _ Hedit), Hmk.
  unfold try_finally.
  match goal with
  | |- context [try_except _ _ ?w1] =>
      destruct (guarded_body_shape e uid s fid (mkdtemp_name e) w1) as (r & mid & Hrun & Hmid)
  end.
  rewrite Hrun, download_cleanup_spec by exact e.
  exists r, mid. split; [|exact Hmid].
  f_equal. unfold emit; simpl.
  rewrite bool_decide_eq_true_2 by (apply elem_of_union_l, elem_of_singleton; reflexivity).
  f_equal. rewrite <- !app_assoc. reflexivity.
Qed.

(** A button press other than Cancel from a user without session is
    answered with the session-expired message and changes no state. *)
Lemma handle_callback_no_session (e : env) (uid : Z) (data : string) (w : world) :
  user_sessions w !! uid = None ->
  data <> "cancel" ->
  exists r evs,
    TelegramBot.handle_callback e uid data w = (r, emit w evs)
    /\ (raises e AtAnswer = false -> raises e AtEditExpired = false ->
        r = Ok tt /\ evs = [EvAnswer uid; EvEdit uid Msg.session_expired None])
    /\ (forall ev, In ev evs ->
          ev = EvAnswer uid \/ ev = EvEdit uid Msg.session_expired None).
Proof.
  intros Hnone Hdata.
  unfold TelegramBot.handle_callback, bind, read, call, log.
  apply String.eqb_neq in Hdata. rewrite Hdata.
  destruct (raises e AtAnswer); simpl;
    [|rewrite Hnone; destruct (raises e AtEditExpired); simpl].
  - exists Raised, []. split; [|split; [discriminate | intros ev []]].
    unfold emit. rewrite app_nil_r. now destruct w.
  - exists Raised, [EvAnswer uid]. split; [reflexivity|]. split; [discriminate|].
    intros ev [<-|[]]. now left.
  - exists (Ok tt), [EvAnswer uid; EvEdit uid Msg.session_expired None].
    split; [unfold emit; simpl; now rewrite <- app_assoc|].
    split; [tauto|]. intros ev [<-|[<-|[]]]; tauto.
Qed.

(** ** Sessions *)

(** The two ways of having no session that the specification names. *)
Lemma empty_world_no_session (uid : Z) :
  user_sessions Scenario.empty_world !! uid = None.
Proof. apply lookup_empty. Qed.

Lemma cancel_button_leaves_no_session (e : env) (uid : Z) (w : world) :
  raises e AtAnswer = false ->
  user_sessions (snd (TelegramBot.handle_callback e uid "cancel" w)) !! uid = None.
Proof.
  intros Hans. unfold TelegramBot.handle_callback, bind, call, log, del_session_if_present.
  rewrite Hans. simpl.
  destruct (user_sessions w !! uid) eqn:Hs; simpl;
    destruct (raises e AtEditCancelled); simpl;
    first [apply lookup_delete_eq | exact Hs].
Qed.

Lemma cancel_command_leaves_no_session (e : env) (uid : Z) (w : world) :
  user_sessions (snd (TelegramBot.cancel_operation e uid w)) !! uid = None.
Proof.
  unfold TelegramBot.cancel_operation, bind, call, log, del_session_if_present.
  destruct (user_sessions w !! uid) eqn:Hs; simpl.
  - destruct (raises e AtReplyCancelled); simpl; apply lookup_delete_eq.
  - destruct (raises e AtReplyNoOperation); simpl; exact Hs.
Qed.

(** C5: for a user without session, every button press other than Cancel
    (a category, Back, a quality) is answered with the session-expired
    message, and neither the session table nor anything else but the trace
    changes. *)
Theorem no_session_reports_expired (e : env) (uid : Z) (data : string) (w : world) :
  user_sessions w !! uid = None ->
  data <> "cancel" ->
  let r := TelegramBot.handle_callback e uid data w in
  user_sessions (snd r) = user_sessions w
  /\ tmp_dirs (snd r) = tmp_dirs w
  /\ (raises e AtAnswer = false -> raises e AtEditExpired = false ->
      r = (Ok tt, emit w [EvAnswer uid; EvEdit uid Msg.session_expired None]))
  /\ (exists evs,
        trace (snd r) = (trace w ++ evs)%list
        /\ forall ev, In ev evs ->
             ev = EvAnswer uid \/ ev = EvEdit uid Msg.session_expired None).
Proof.
  intros Hnone Hdata r.
  destruct (handle_callback_no_session e uid data w Hnone Hdata)
    as (o & evs & Hrun & Hok & Hevs).
  subst r. rewrite Hrun. simpl. repeat split.
  - intros Ha Hx. destruct (Hok Ha Hx) as [-> ->]. reflexivity.
  - exists evs. split; [reflexivity | exact Hevs].
Qed.

Lemma no_session_reports_expired_witness :
  user_sessions Scenario.cancelled !! 7 = None
  /\ "download_22" <> "cancel"
  /\ TelegramBot.handle_callback Scenario.env_ok 7 "download_22" Scenario.cancelled
     = (Ok tt, emit Scenario.cancelled [EvAnswer 7; EvEdit 7 Msg.session_expired None]).
Proof.
  assert (H1 : user_sessions Scenario.cancelled !! 7 = None) by (vm_compute; reflexivity).
  assert (H2 : "download_22" <> "cancel") by discriminate.
  split; [exact H1|]. split; [exact H2|].
  apply (no_session_reports_expired Scenario.env_ok 7 "download_22" Scenario.cancelled H1 H2);
    reflexivity.
Defined.

(** C10: the Cancel button never answers with the session-expired
    message.  Whatever the channel does, it touches only the entry of the
    pressing user; when the channel accepts the calls it completes with the
    cancellation message, leaves the table as it was when the user had no
    session, and removes the entry of the user otherwise. *)
Theorem cancel_button_never_expired (e : env) (uid : Z) (w : world) :
  let r := TelegramBot.handle_callback e uid "cancel" w in
  (exists evs,
      trace (snd r) = (trace w ++ evs)%list
      /\ ~ In (EvEdit uid Msg.session_expired None) evs)
  /\ tmp_dirs (snd r) = tmp_dirs w
  /\ (forall u, u <> uid -> user_sessions (snd r) !! u = user_sessions w !! u)
  /\ (raises e AtAnswer = false ->
      user_sessions (snd r) = delete uid (user_sessions w)
      /\ user_sessions (snd r) !! uid = None
      /\ (user_sessions w !! uid = None -> user_sessions (snd r) = user_sessions w))
  /\ (raises e AtAnswer = false -> raises e AtEditCancelled = false ->
      fst r = Ok tt
      /\ trace (snd r)
         = (trace w ++ [EvAnswer uid]
              ++ (match user_sessions w !! uid with
                  | Some _ => [EvSessionDel uid]
                  | None => []
                  end)
              ++ [EvEdit uid Msg.cancelled None])%list).
Proof.
  intros r. subst r.
  unfold TelegramBot.handle_callback, bind, call, log, del_session_if_present.
  simpl String.eqb. cbv iota.
  destruct (raises e AtAnswer) eqn:Hans; simpl.
  - repeat split; try discriminate.
    exists []. split; [now rewrite app_nil_r | intros []].
  - destruct (user_sessions w !! uid) eqn:Hs; simpl;
      destruct (raises e AtEditCancelled) eqn:Hc; simpl;
      (split; [eexists; split; [rewrite <- ?app_assoc; reflexivity|];
               simpl; intros H;
               repeat (destruct H as [H|H]; [discriminate H|]); exact H|]);
      (split; [reflexivity|]);
      (split; [intros u Hu; first [now apply lookup_delete_ne | reflexivity]|]);
      (split; [intros _; repeat split;
               first [apply lookup_delete_eq | exact Hs | now rewrite (delete_id _ _ Hs)
                     | reflexivity | discriminate]|]);
      intros _ Hx; try discriminate Hx;
      (split; [reflexivity | rewrite <- ?app_assoc; reflexivity]).
Qed.

Example cancel_button_without_session :
  TelegramBot.handle_callback Scenario.env_ok 7 "cancel" Scenario.empty_world
  = (Ok tt, emit Scenario.empty_world [EvAnswer 7; EvEdit 7 Msg.cancelled None]).
Proof. vm_compute. reflexivity. Qed.

Example cancel_button_with_session :
  TelegramBot.handle_callback Scenario.env_ok 7 "cancel" Scenario.started
  = (Ok tt,
     {| user_sessions := ∅; tmp_dirs := ∅;
        trace := (trace Scenario.started
                  ++ [EvAnswer 7; EvSessionDel 7; EvEdit 7 Msg.cancelled None])%list |}).
Proof. vm_compute. reflexivity. Qed.

(** ** Downloads *)

(** C2, counterexample: user 7 has just sent a URL and sees the category
    menu (no category chosen); a press on [download_22] downloads the
    file and delivers it. *)
Lemma download_from_category_menu :
  MenuState.menu_state_of Scenario.started 7 = Some MenuState.AwaitingCategory
  /\ fst (TelegramBot.handle_callback Scenario.env_ok 7 "download_22" Scenario.started) = Ok tt
  /\ In (EvDownload "https://youtu.be/abc" "22" "/tmp/tmpk3v9")
        (trace Scenario.pressed_download)
  /\ In (EvReplyVideo 7 "/tmp/tmpk3v9/Clip.mp4" (Msg.caption Scenario.the_session))
        (trace Scenario.pressed_download).
Proof.
  split; [vm_compute; reflexivity|].
  split; [vm_compute; reflexivity|].
  split; vm_compute; repeat (first [left; reflexivity | right]).
Qed.

(** C2, as the code has it: a press on a [download_] button by a user who
    has a session runs [download_and_send] on that session, whatever menu
    is on screen: the handler looks at the session table and at the button
    data only.  Once the first edit and [mkdtemp] succeed, the download is
    requested. *)
Theorem download_press_starts_download
    (e : env) (uid : Z) (s : session) (data : string) (w : world) :
  user_sessions w !! uid = Some s ->
  PyStr.startswith "download_" data = true ->
  raises e AtAnswer = false ->
  TelegramBot.handle_callback e uid data w
  = TelegramBot.download_and_send e uid s (PyStr.replace "download_" "" data)
      (emit w [EvAnswer uid])
  /\ (raises e AtEditDownloading = false -> raises e AtMkdtemp = false ->
      In (EvDownload (url s) (PyStr.replace "download_" "" data) (mkdtemp_name e))
         (trace (snd (TelegramBot.handle_callback e uid data w)))).
Proof.
  intros Hs Hdata Hans.
  assert (Hrun : TelegramBot.handle_callback e uid data w
                 = TelegramBot.download_and_send e uid s
                     (PyStr.replace "download_" "" data) (emit w [EvAnswer uid])).
  { unfold TelegramBot.handle_callback, bind, read.
    rewrite (call_ok _ _ _ _ Hans).
    pose proof Hdata as Hpre. apply startswith_iff in Hpre as [t ->].
    replace (String.eqb ("download_" ++ t) "cancel") with false by reflexivity.
    replace (String.eqb ("download_" ++ t) "back") with false by reflexivity.
    replace (PyStr.startswith "category_" ("download_" ++ t)) with false by reflexivity.
    cbv beta.
    change (user_sessions (emit w [EvAnswer uid]) !! uid) with (user_sessions w !! uid).
    rewrite Hs, Hdata. reflexivity. }
  split; [exact Hrun|].
  intros Hedit Hmk. rewrite Hrun.
  destruct (download_and_send_begun e uid s (PyStr.replace "download_" "" data)
              (emit w [EvAnswer uid]) Hedit Hmk) as (r & mid & Heq & _).
  rewrite Heq. cbn [snd trace]. apply in_or_app. right.
  simpl. right. right. left. reflexivity.
Qed.

Lemma download_press_starts_download_witness :
  user_sessions Scenario.started !! 7 = Some Scenario.the_session
  /\ MenuState.menu_state_of Scenario.started 7 = Some MenuState.AwaitingCategory
  /\ TelegramBot.handle_callback Scenario.env_ok 7 "download_22" Scenario.started
     = TelegramBot.download_and_send Scenario.env_ok 7 Scenario.the_session
         (PyStr.replace "download_" "" "download_22") (emit Scenario.started [EvAnswer 7]).
Proof.
  assert (H1 : user_sessions Scenario.started !! 7 = Some Scenario.the_session)
    by (vm_compute; reflexivity).
  split; [exact H1|]. split; [vm_compute; reflexivity|].
  exact (proj1 (download_press_starts_download Scenario.env_ok 7 Scenario.the_session
                  "download_22" Scenario.started H1 eq_refl eq_refl)).
Defined.

(** C6, counterexample: after a completed download user 7 has no session,
    and the Cancel button is answered with the cancellation message, not
    with the session-expired message. *)
Lemma cancel_after_download_not_expired :
  user_sessions Scenario.pressed_download !! 7 = None
  /\ TelegramBot.handle_callback Scenario.env_ok 7 "cancel" Scenario.pressed_download
     = (Ok tt, emit Scenario.pressed_download [EvAnswer 7; EvEdit 7 Msg.cancelled None])
  /\ Msg.cancelled <> Msg.session_expired.
Proof.
  split; [vm_compute; reflexivity|].
  split; [vm_compute; reflexivity|].
  discriminate.
Qed.

(** C6, as the code has it: once the download has begun (the first edit
    and [mkdtemp] succeeded), every way out of [download_and_send], whatever
    the download, the size check and the channel do, leaves the user
    without session and the other users' sessions as they were; every
    later button press of the user other than Cancel is answered with the
    session-expired message. *)
Theorem download_attempt_destroys_session
    (e : env) (uid : Z) (s : session) (fid : string) (w : world) :
  raises e AtEditDownloading = false ->
  raises e AtMkdtemp = false ->
  let w' := snd (TelegramBot.download_and_send e uid s fid w) in
  user_sessions w' !! uid = None
  /\ user_sessions w' = delete uid (user_sessions w)
  /\ (forall (e' : env) (data : string),
        data <> "cancel" ->
        exists r evs,
          TelegramBot.handle_callback e' uid data w' = (r, emit w' evs)
          /\ (raises e' AtAnswer = false -> raises e' AtEditExpired = false ->
              r = Ok tt /\ evs = [EvAnswer uid; EvEdit uid Msg.session_expired None])
          /\ (forall ev, In ev evs ->
                ev = EvAnswer uid \/ ev = EvEdit uid Msg.session_expired None)).
Proof.
  intros Hedit Hmk w'.
  destruct (download_and_send_begun e uid s fid w Hedit Hmk) as (r & mid & Heq & _).
  assert (Hnone : user_sessions w' !! uid = None).
  { subst w'. rewrite Heq. simpl. apply lookup_delete_eq. }
  split; [exact Hnone|]. split.
  - subst w'. rewrite Heq. reflexivity.
  - intros e' data Hdata. now apply handle_callback_no_session.
Qed.

Lemma download_attempt_destroys_session_witness :
  raises Scenario.env_delivery_raises AtEditDownloading = false
  /\ raises Scenario.env_delivery_raises AtMkdtemp = false
  /\ user_sessions
       (snd (TelegramBot.download_and_send Scenario.env_delivery_raises 7
               Scenario.the_session "22" Scenario.started)) !! 7 = None.
Proof.
  split; [reflexivity|]. split; [reflexivity|].
  exact (proj1 (download_attempt_destroys_session Scenario.env_delivery_raises 7
                  Scenario.the_session "22" Scenario.started eq_refl eq_refl)).
Defined.

(** Before the download has begun nothing is cleaned up: when the first
    edit raises, the session stays. *)
Example first_edit_raises_session_stays :
  TelegramBot.handle_callback Scenario.env_edit_raises 7 "download_22" Scenario.started
  = (Raised, emit Scenario.started [EvAnswer 7]).
Proof. vm_compute. reflexivity. Qed.

(** C7: in a download that has begun, the temporary directory is created
    before the download is requested; on every way out (delivery, failed
    download, oversize file, exception) it is removed after the last
    channel call and before the session is deleted, and no directory is
    left behind. *)
Theorem temp_dir_scoped
    (e : env) (uid : Z) (s : session) (fid : string) (w : world) :
  is_Some (user_sessions w !! uid) ->
  raises e AtEditDownloading = false ->
  raises e AtMkdtemp = false ->
  let d := mkdtemp_name e in
  let w' := snd (TelegramBot.download_and_send e uid s fid w) in
  (d ∉ tmp_dirs w')
  /\ (d ∉ tmp_dirs w -> tmp_dirs w' = tmp_dirs w)
  /\ (exists mid,
        trace w'
        = (trace w
           ++ [EvEdit uid Msg.downloading None; EvMkdtemp d; EvDownload (url s) fid d]
           ++ mid
           ++ [EvRmtree d; EvSessionDel uid])%list
        /\ Forall (fun ev => is_channel ev = true) mid).
Proof.
  intros [s0 Hs0] Hedit Hmk d w'.
  destruct (download_and_send_begun e uid s fid w Hedit Hmk) as (r & mid & Heq & Hmid).
  subst w'. rewrite Heq. cbn [snd tmp_dirs trace]. fold d. rewrite Hs0.
  split; [|split].
  - rewrite elem_of_difference, elem_of_singleton. tauto.
  - intros Hfresh. apply set_eq. intros x.
    rewrite elem_of_difference, elem_of_union, !elem_of_singleton.
    split; [tauto|]. intros Hx. split; [now right | congruence].
  - exists mid. split; [reflexivity | exact Hmid].
Qed.

Lemma temp_dir_scoped_witness :
  is_Some (user_sessions Scenario.started !! 7)
  /\ raises Scenario.env_delivery_raises AtEditDownloading = false
  /\ raises Scenario.env_delivery_raises AtMkdtemp = false
  /\ mkdtemp_name Scenario.env_delivery_raises
       ∉ tmp_dirs (snd (TelegramBot.download_and_send Scenario.env_delivery_raises 7
                          Scenario.the_session "22" Scenario.started)).
Proof.
  assert (H1 : is_Some (user_sessions Scenario.started !! 7))
    by (exists Scenario.the_session; vm_compute; reflexivity).
  split; [exact H1|]. split; [reflexivity|]. split; [reflexivity|].
  exact (proj1 (temp_dir_scoped Scenario.env_delivery_raises 7 Scenario.the_session
                  "22" Scenario.started H1 eq_refl eq_refl)).
Defined.

(** When the download has not begun (the first edit or [mkdtemp] raised),
    no directory was created and none is left. *)
Lemma download_not_begun (e : env) (uid : Z) (s : session) (fid : string) (w : world) :
  raises e AtEditDownloading = true \/ raises e AtMkdtemp = true ->
  exists evs,
    TelegramBot.download_and_send e uid s fid w = (Raised, emit w evs)
    /\ (evs = [] \/ evs = [EvEdit uid Msg.downloading None]).
Proof.
  intros H. unfold TelegramBot.download_and_send, bind, mkdtemp, call, log.
  destruct (raises e AtEditDownloading) eqn:Hedit; simpl.
  - exists []. split; [|now left]. unfold emit. rewrite app_nil_r. now destruct w.
  - destruct H as [H|H]; [discriminate|]. rewrite H.
    exists [EvEdit uid Msg.downloading None]. split; [reflexivity | now right].
Qed.

Example delivery_raises_trace :
  TelegramBot.download_and_send Scenario.env_delivery_raises 7 Scenario.the_session "22"
    Scenario.started
  = (Ok tt,
     {| user_sessions := ∅; tmp_dirs := ∅;
        trace := (trace Scenario.started
                  ++ [EvEdit 7 Msg.downloading None; EvMkdtemp "/tmp/tmpk3v9";
                      EvDownload "https://youtu.be/abc" "22" "/tmp/tmpk3v9";
                      EvEdit 7 Msg.uploading None;
                      EvEdit 7 Msg.download_failed None;
                      EvRmtree "/tmp/tmpk3v9"; EvSessionDel 7])%list |}).
Proof. vm_compute. reflexivity. Qed.

(** C8: when the downloaded file is larger than [MAX_FILE_SIZE], nothing
    is delivered, the user ends without session, and, the channel
    accepting the edit, the only message after the download is the
    oversize message. *)
Theorem oversize_file_not_delivered
    (e : env) (uid : Z) (s : session) (fid p : string) (w : world) :
  is_Some (user_sessions w !! uid) ->
  raises e AtEditDownloading = false ->
  raises e AtMkdtemp = false ->
  download_result e (url s) fid (mkdtemp_name e) = Some p ->
  TelegramBot.download_missing e (Some p) = false ->
  raises e AtGetsize = false ->
  MAX_FILE_SIZE < getsize e p ->
  let d := mkdtemp_name e in
  let r := TelegramBot.download_and_send e uid s fid w in
  user_sessions (snd r) !! uid = None
  /\ (d ∉ tmp_dirs (snd r))
  /\ (exists evs,
        trace (snd r) = (trace w ++ evs)%list
        /\ Forall (fun ev => is_delivery ev = false) evs)
  /\ (raises e AtEditTooLarge = false ->
      fst r = Ok tt
      /\ trace (snd r)
         = (trace w
            ++ [EvEdit uid Msg.downloading None; EvMkdtemp d; EvDownload (url s) fid d;
                EvEdit uid (Msg.too_large (getsize e p)) None;
                EvRmtree d; EvSessionDel uid])%list).
Proof.
  intros [s0 Hs0] Hedit Hmk Hres Hmiss Hsize Hbig d r. subst r.
  apply Z.ltb_lt in Hbig.
  unfold TelegramBot.download_and_send, bind, mkdtemp.
  rewrite (call_ok _ _ _ _ Hedit), Hmk.
  unfold try_finally, try_except, TelegramBot.download_body, bind, log, ret, call.
  rewrite Hres, Hmiss, Hsize. cbn [default from_option id]. rewrite Hbig.
  destruct (raises e AtEditTooLarge) eqn:Htl;
    [destruct (raises e AtEditHandler) eqn:Hh|];
    unfold log; cbv beta iota;
    rewrite download_cleanup_spec by exact e;
    cbn [fst snd user_sessions tmp_dirs trace emit]; rewrite Hs0;
    rewrite bool_decide_eq_true_2
      by (apply elem_of_union_l, elem_of_singleton; reflexivity);
    (split; [apply lookup_delete_eq|]);
    (split; [rewrite elem_of_difference, elem_of_singleton; tauto|]);
    (split; [eexists; split; [rewrite <- !app_assoc; reflexivity | repeat constructor]|]);
    intros Hx; try discriminate Hx;
    (split; [reflexivity | rewrite <- !app_assoc; reflexivity]).
Qed.

Lemma oversize_file_not_delivered_witness :
  is_Some (user_sessions Scenario.started !! 7)
  /\ MAX_FILE_SIZE < getsize Scenario.env_oversize "/tmp/tmpk3v9/Clip.mp4"
  /\ TelegramBot.download_missing Scenario.env_oversize (Some "/tmp/tmpk3v9/Clip.mp4") = false
  /\ user_sessions
       (snd (TelegramBot.download_and_send Scenario.env_oversize 7 Scenario.the_session
               "22" Scenario.started)) !! 7 = None.
Proof.
  assert (H1 : is_Some (user_sessions Scenario.started !! 7))
    by (exists Scenario.the_session; vm_compute; reflexivity).
  assert (H2 : MAX_FILE_SIZE < getsize Scenario.env_oversize "/tmp/tmpk3v9/Clip.mp4")
    by (vm_compute; reflexivity).
  split; [exact H1|]. split; [exact H2|]. split; [reflexivity|].
  exact (proj1 (oversize_file_not_delivered Scenario.env_oversize 7 Scenario.the_session
                  "22" "/tmp/tmpk3v9/Clip.mp4" Scenario.started
                  H1 eq_refl eq_refl eq_refl eq_refl eq_refl H2)).
Defined.

Example oversize_trace :
  TelegramBot.download_and_send Scenario.env_oversize 7 Scenario.the_session "22"
    Scenario.started
  = (Ok tt,
     {| user_sessions := ∅; tmp_dirs := ∅;
        trace := (trace Scenario.started
                  ++ [EvEdit 7 Msg.downloading None; EvMkdtemp "/tmp/tmpk3v9";
                      EvDownload "https://youtu.be/abc" "22" "/tmp/tmpk3v9";
                      EvEdit 7 "❌ File too large (3072.0MB). Maximum allowed size is 2048MB." None;
                      EvRmtree "/tmp/tmpk3v9"; EvSessionDel 7])%list |}).
Proof. vm_compute. reflexivity. Qed.

(** * Further properties of the code *)

(** ** Classifier: the removal of [www.] *)

Example get_platform_upper_case :
  MediaDownloader.get_platform UrlParse.py_netloc PyStr.lower
    "HTTPS://WWW.YouTube.COM/watch?v=abc"
  = Ok (Some "YouTube").
Proof. reflexivity. Qed.

Lemma replace_www_skip (s : string) :
  PyStr.replace "www." "" ("www." ++ s) = PyStr.replace "www." "" s.
Proof. reflexivity. Qed.

Lemma contains_cons (key : string) (c : ascii) (s : string) :
  PyStr.contains key (String c s)
  = PyStr.startswith key (String c s) || PyStr.contains key s.
Proof. reflexivity. Qed.

Lemma contains_startswith (key s : string) :
  PyStr.startswith key s = true -> PyStr.contains key s = true.
Proof. intros H. destruct s; simpl; rewrite H; reflexivity. Qed.

(** Removing [www.] keeps an occurrence of [key] when [key] does not
    begin with a character of [www.] and passes through the replacement
    unchanged. *)
Lemma replace_www_keeps (key : string) :
  (forall t, PyStr.startswith key (String "w" t) = false) ->
  (forall t, PyStr.startswith key (String "." t) = false) ->
  (forall t, PyStr.replace "www." "" (key ++ t) = key ++ PyStr.replace "www." "" t) ->
  forall s, PyStr.contains key s = true ->
            PyStr.contains key (PyStr.replace "www." "" s) = true.
Proof.
  intros Hw Hdot Hpass s.
  remember (String.length s) as n eqn:Hn.
  assert (Hle : (String.length s <= n)%nat) by lia. clear Hn.
  revert s Hle. induction n as [|n IH]; intros s Hle Hocc.
  { destruct s; [|simpl in Hle; lia]. destruct key; [reflexivity | discriminate Hocc]. }
  destruct (PyStr.startswith "www." s) eqn:Hsw.
  - apply startswith_iff in Hsw as [s' ->].
    rewrite replace_www_skip.
    change ("www." ++ s') with (String "w" (String "w" (String "w" (String "." s')))) in *.
    apply IH.
    + simpl in Hle. lia.
    + rewrite !contains_cons, !Hw, Hdot in Hocc. exact Hocc.
  - destruct s as [|c s']; [|rewrite contains_cons in Hocc;
                              apply orb_true_iff in Hocc as [Hhere|Hlater]].
    + destruct key; [reflexivity | discriminate Hocc].
    + apply startswith_iff in Hhere as [t Ht]. rewrite Ht, Hpass.
      apply contains_startswith, startswith_iff. now exists (PyStr.replace "www." "" t).
    + assert (Hstep : PyStr.replace "www." "" (String c s')
                      = String c (PyStr.replace "www." "" s')).
      { unfold PyStr.replace. cbn [PyStr.replace_from]. now rewrite Hsw. }
      rewrite Hstep, contains_cons. apply orb_true_iff. right.
      apply IH; [simpl in Hle; lia | exact Hlater].
Qed.

Lemma first_match_found (table : list (string * string)) (d key name : string) :
  In (key, name) table -> PyStr.contains key d = true ->
  exists name', MediaDownloader.first_match table d = Some name'.
Proof.
  intros Hin Hocc.
  destruct (MediaDownloader.first_match table d) as [n|] eqn:Hm; [now exists n|].
  exfalso. apply (proj1 (first_match_none table d) Hm key name Hin).
  now apply contains_iff.
Qed.

(** X2: removing [www.] never loses a match: a URL that [urlparse]
    accepts and whose lowercased network location contains one of the
    configured host substrings is classified as a supported platform. *)
Theorem get_platform_supported_when_key_occurs
    (netloc : string -> option string) (lower : string -> string) (u n key name : string) :
  In (key, name) MediaDownloader.supported_platforms ->
  netloc u = Some n ->
  occurs key (lower n) ->
  exists name', MediaDownloader.get_platform netloc lower u = Ok (Some name').
Proof.
  intros Hin Hn Hocc. unfold MediaDownloader.get_platform, MediaDownloader.domain_of.
  rewrite Hn.
  cut (exists name', MediaDownloader.first_match MediaDownloader.supported_platforms
                       (PyStr.replace "www." "" (lower n)) = Some name').
  { intros [name' ->]. now exists name'. }
  apply (first_match_found _ _ key name Hin).
  apply contains_iff in Hocc.
  simpl in Hin.
  repeat (destruct Hin as [[= <- <-] | Hin];
          [apply replace_www_keeps; [reflexivity | reflexivity | reflexivity | exact Hocc]|]).
  destruct Hin.
Qed.

Lemma get_platform_supported_when_key_occurs_witness :
  In ("tiktok.com", "TikTok") MediaDownloader.supported_platforms
  /\ UrlParse.py_netloc "https://VM.TikTok.com/ZM1/" = Some "VM.TikTok.com"
  /\ occurs "tiktok.com" (PyStr.lower "VM.TikTok.com")
  /\ exists name',
       MediaDownloader.get_platform UrlParse.py_netloc PyStr.lower
         "https://VM.TikTok.com/ZM1/" = Ok (Some name').
Proof.
  assert (H1 : In ("tiktok.com", "TikTok") MediaDownloader.supported_platforms)
    by (simpl; tauto).
  assert (H2 : occurs "tiktok.com" (PyStr.lower "VM.TikTok.com"))
    by (exists "vm.", ""; reflexivity).
  split; [exact H1|]. split; [reflexivity|]. split; [exact H2|].
  exact (get_platform_supported_when_key_occurs UrlParse.py_netloc PyStr.lower
           "https://VM.TikTok.com/ZM1/" "VM.TikTok.com" "tiktok.com" "TikTok"
           H1 eq_refl H2).
Defined.

(** ** Quality menu: completeness, order, categories, labels *)

Lemma selected_in_qualifying (i : info) (category : string) (f : format) :
  In f (Ranking.selected i category) -> In f (qualifying i category).
Proof.
  intros H. apply selected_inv in H as [Hin [[-> Hok] | [-> Hok]]];
    apply filter_In; split; assumption.
Qed.

Lemma take_all {A : Type} (n : nat) (l : list A) : (length l <= n)%nat -> take n l = l.
Proof.
  revert n; induction l as [|x l IH]; intros [|n] H; simpl in *; try reflexivity; try lia.
  f_equal. apply IH. lia.
Qed.

(** X3: when at most five encodings pass the filter of a category, each
    of them has its row in the menu: an encoding is left out only by the
    filter or by the cut to five. *)
Theorem few_qualifying_all_offered (i : info) (category : string) (f : format) :
  (length (qualifying i category) <= 5)%nat ->
  In f (qualifying i category) ->
  In f (Ranking.selected i category)
  /\ In (Ranking.row_of category f) (Menu.quality_rows i category).
Proof.
  intros Hlen Hin.
  assert (Hsel : In f (Ranking.selected i category)).
  { unfold qualifying, qualifies in *. unfold Ranking.selected.
    destruct (String.eqb category "audio").
    - unfold Ranking.selected_audio. rewrite take_all.
      + now apply sort_desc_In.
      + now rewrite sort_desc_length.
    - destruct (String.eqb category "video").
      + unfold Ranking.selected_video. rewrite take_all.
        * now apply sort_desc_In.
        * now rewrite sort_desc_length.
      + apply filter_In in Hin as [_ Hf]. discriminate. }
  split; [exact Hsel|]. rewrite quality_rows_selected. now apply in_map.
Qed.

Lemma few_qualifying_all_offered_witness :
  (length (qualifying Sample.audio_info "audio") <= 5)%nat
  /\ In (Sample.audio "140" "m4a" 128 3500000) (qualifying Sample.audio_info "audio")
  /\ In (Ranking.row_of "audio" (Sample.audio "140" "m4a" 128 3500000))
        (Menu.quality_rows Sample.audio_info "audio").
Proof.
  assert (H1 : (length (qualifying Sample.audio_info "audio") <= 5)%nat)
    by (vm_compute; lia).
  assert (H2 : In (Sample.audio "140" "m4a" 128 3500000)
                 (qualifying Sample.audio_info "audio"))
    by (vm_compute; tauto).
  split; [exact H1|]. split; [exact H2|].
  exact (proj2 (few_qualifying_all_offered Sample.audio_info "audio"
                  (Sample.audio "140" "m4a" 128 3500000) H1 H2)).
Defined.

Lemma non_increasing_head (x : Z) (l : list Z) :
  Ranking.non_increasing (x :: l) -> forall y, In y l -> y <= x.
Proof.
  revert x; induction l as [|z l IH]; intros x H y Hy; [destruct Hy|].
  destruct H as [Hzx Hrest]. destruct Hy as [<-|Hy]; [exact Hzx|].
  specialize (IH z Hrest y Hy). lia.
Qed.

Lemma non_increasing_tail (x : Z) (l : list Z) :
  Ranking.non_increasing (x :: l) -> Ranking.non_increasing l.
Proof. destruct l as [|y l]; [intros _; exact I | intros [_ H]; exact H]. Qed.

Lemma non_increasing_split (a b : list Z) :
  Ranking.non_increasing (a ++ b)%list ->
  forall x y, In x a -> In y b -> y <= x.
Proof.
  induction a as [|z a IH]; intros H x y Hx Hy; [destruct Hx|].
  destruct Hx as [<-|Hx].
  - apply (non_increasing_head z (a ++ b)%list H). apply in_or_app. now right.
  - apply IH; try assumption. exact (non_increasing_tail _ _ H).
Qed.

(** X4: the cut of the video menu keeps the tallest: an encoding that
    passes the video filter and gets no row is not taller than any
    encoding that has one. *)
Theorem video_menu_keeps_tallest (i : info) (f g : format) :
  In f (Ranking.selected i "video") ->
  In g (qualifying i "video") ->
  ~ In g (Ranking.selected i "video") ->
  Ranking.height_of g <= Ranking.height_of f.
Proof.
  unfold Ranking.selected, qualifying, qualifies, Ranking.selected_video. simpl.
  set (l := sort_desc Z.ltb Ranking.height_of
              (List.filter Ranking.video_ok (default [] (formats i)))).
  intros Hf Hg Hnot.
  assert (Hgl : In g l) by (now apply sort_desc_In).
  rewrite <- (firstn_skipn 5 l) in Hgl. apply in_app_or in Hgl as [Hgl|Hgl]; [contradiction|].
  pose proof (sort_desc_non_increasing Ranking.height_of
                (List.filter Ranking.video_ok (default [] (formats i)))) as Hsorted.
  fold l in Hsorted. rewrite <- (firstn_skipn 5 l), map_app in Hsorted.
  apply (non_increasing_split _ _ Hsorted); now apply in_map.
Qed.

(** X5: the two menus never share an encoding, and an encoding whose
    [vcodec] key is missing or [None] is treated as video: it is never
    offered as audio. *)
Theorem audio_video_menus_disjoint (i : info) (f : format) :
  (In f (Ranking.selected i "audio") -> ~ In f (Ranking.selected i "video"))
  /\ (get (vcodec f) = None ->
      Menu.has_video f = true /\ ~ In f (Ranking.selected i "audio")).
Proof.
  assert (Haudio : In f (Ranking.selected i "audio") -> get (vcodec f) = Some "none").
  { intros Ha. apply selected_inv in Ha as [_ [[_ Hok] | [Hc _]]]; [|discriminate].
    unfold Ranking.audio_ok, Menu.is_audio_only in Hok.
    apply andb_true_iff in Hok as [Hok _]. apply andb_true_iff in Hok as [_ Hv].
    now apply bool_decide_eq_true in Hv. }
  split.
  - intros Ha Hv. apply Haudio in Ha.
    apply selected_inv in Hv as [_ [[Hc _] | [_ Hok]]]; [discriminate|].
    unfold Ranking.video_ok, Menu.has_video in Hok.
    apply andb_true_iff in Hok as [Hok _]. apply andb_true_iff in Hok as [Hv _].
    rewrite Ha in Hv. discriminate.
  - intros Hnone. split.
    + unfold Menu.has_video. now rewrite Hnone.
    + intros Ha. apply Haudio in Ha. congruence.
Qed.

(** X6: the size shown on a button is the size in mebibytes rounded to
    the nearest tenth, ties to the even tenth. *)
Theorem tenths_of_mb_nearest (n : Z) :
  let t := Menu.tenths_of_mb n in
  -524288 <= n * 10 - t * 1048576 <= 524288
  /\ (Z.abs (n * 10 - t * 1048576) = 524288 -> Z.even t = true).
Proof.
  unfold Menu.tenths_of_mb.
  pose proof (Z.div_mod (n * 10) 1048576 ltac:(lia)) as Hdm.
  pose proof (Z.mod_pos_bound (n * 10) 1048576 ltac:(lia)) as Hr.
  set (q := n * 10 / 1048576) in *. set (r := (n * 10) mod 1048576) in *.
  destruct (Z.ltb_spec 524288 r) as [Hgt|Hle]; simpl.
  - split; [lia|]. intros Habs. lia.
  - destruct (Z.eqb_spec r 524288) as [Heq|Hne]; simpl.
    + destruct (Z.odd q) eqn:Hodd.
      * split; [lia|]. intros _. rewrite Z.even_add, <- Z.negb_odd, Hodd. reflexivity.
      * split; [lia|]. intros _. now rewrite <- Z.negb_odd, Hodd.
    + split; [lia|]. intros Habs. lia.
Qed.

Lemma video_menu_keeps_tallest_witness :
  In (Sample.video "133" (Val 240) (Val 2000000))
     (Ranking.selected Sample2.six_video_info "video")
  /\ In (Sample.video "160" (Val 144) (Val 1000000))
        (qualifying Sample2.six_video_info "video")
  /\ ~ In (Sample.video "160" (Val 144) (Val 1000000))
          (Ranking.selected Sample2.six_video_info "video")
  /\ Ranking.height_of (Sample.video "160" (Val 144) (Val 1000000))
     <= Ranking.height_of (Sample.video "133" (Val 240) (Val 2000000)).
Proof.
  assert (H1 : In (Sample.video "133" (Val 240) (Val 2000000))
                 (Ranking.selected Sample2.six_video_info "video"))
    by (vm_compute; tauto).
  assert (H2 : In (Sample.video "160" (Val 144) (Val 1000000))
                 (qualifying Sample2.six_video_info "video"))
    by (vm_compute; tauto).
  assert (H3 : ~ In (Sample.video "160" (Val 144) (Val 1000000))
                   (Ranking.selected Sample2.six_video_info "video")).
  { vm_compute. intros H. repeat (destruct H as [H|H]; [discriminate H|]). exact H. }
  split; [exact H1|]. split; [exact H2|]. split; [exact H3|].
  exact (video_menu_keeps_tallest Sample2.six_video_info _ _ H1 H2 H3).
Defined.

(** ** Button data and the requested format *)

Lemma replace_absent (old new s : string) :
  PyStr.contains old s = false -> PyStr.replace old new s = s.
Proof.
  unfold PyStr.replace. induction s as [|c s IH]; intros H; [reflexivity|].
  rewrite contains_cons in H. apply orb_false_iff in H as [Hhere Hlater].
  cbn [PyStr.replace_from]. rewrite Hhere, (IH Hlater). reflexivity.
Qed.

Lemma handle_callback_download (e : env) (uid : Z) (s : session) (data : string) (w : world) :
  user_sessions w !! uid = Some s ->
  PyStr.startswith "download_" data = true ->
  raises e AtAnswer = false ->
  TelegramBot.handle_callback e uid data w
  = TelegramBot.download_and_send e uid s (PyStr.replace "download_" "" data)
      (emit w [EvAnswer uid]).
Proof.
  intros Hs Hdata Hans.
  unfold TelegramBot.handle_callback, bind, read.
  rewrite (call_ok _ _ _ _ Hans).
  pose proof Hdata as Hpre. apply startswith_iff in Hpre as [t ->].
  replace (String.eqb ("download_" ++ t) "cancel") with false by reflexivity.
  replace (String.eqb ("download_" ++ t) "back") with false by reflexivity.
  replace (PyStr.startswith "category_" ("download_" ++ t)) with false by reflexivity.
  cbv beta.
  change (user_sessions (emit w [EvAnswer uid]) !! uid) with (user_sessions w !! uid).
  rewrite Hs, Hdata. reflexivity.
Qed.

(** X7: the data of a quality button leads back to its encoding: for a
    format id in which [download_] does not occur, a press on the button
    built for it requests the download of exactly this format id from the
    URL of the session. *)
Theorem quality_button_requests_its_format
    (e : env) (uid : Z) (s : session) (label fid : string) (w : world) (b : button) :
  In b (Menu.download_button label fid) ->
  ~ occurs "download_" fid ->
  user_sessions w !! uid = Some s ->
  raises e AtAnswer = false ->
  raises e AtEditDownloading = false ->
  raises e AtMkdtemp = false ->
  PyStr.replace "download_" "" (callback_data b) = fid
  /\ In (EvDownload (url s) fid (mkdtemp_name e))
        (trace (snd (TelegramBot.handle_callback e uid (callback_data b) w))).
Proof.
  intros Hb Hfid Hs Hans Hedit Hmk.
  destruct Hb as [<-|[]]. cbn [callback_data].
  assert (Hrt : PyStr.replace "download_" "" ("download_" ++ fid) = fid).
  { change (PyStr.replace "download_" "" ("download_" ++ fid))
      with (PyStr.replace "download_" "" fid).
    apply replace_absent. now apply contains_false_iff. }
  split; [exact Hrt|].
  rewrite (handle_callback_download e uid s ("download_" ++ fid) w Hs eq_refl Hans), Hrt.
  destruct (download_and_send_begun e uid s fid (emit w [EvAnswer uid]) Hedit Hmk)
    as (r & mid & Heq & _).
  rewrite Heq. cbn [snd trace]. apply in_or_app. right.
  simpl. right. right. left. reflexivity.
Qed.

Lemma quality_button_requests_its_format_witness :
  In (InlineKeyboardButton "📹 720p MP4 (50.0MB)" "download_22")
     (Menu.download_button "📹 720p MP4 (50.0MB)" "22")
  /\ ~ occurs "download_" "22"
  /\ user_sessions Scenario.started !! 7 = Some Scenario.the_session
  /\ In (EvDownload "https://youtu.be/abc" "22" "/tmp/tmpk3v9")
        (trace (snd (TelegramBot.handle_callback Scenario.env_ok 7 "download_22"
                       Scenario.started))).
Proof.
  assert (H1 : In (InlineKeyboardButton "📹 720p MP4 (50.0MB)" "download_22")
                 (Menu.download_button "📹 720p MP4 (50.0MB)" "22"))
    by (left; reflexivity).
  assert (H2 : ~ occurs "download_" "22")
    by (apply contains_false_iff; reflexivity).
  assert (H3 : user_sessions Scenario.started !! 7 = Some Scenario.the_session)
    by (vm_compute; reflexivity).
  split; [exact H1|]. split; [exact H2|]. split; [exact H3|].
  exact (proj2 (quality_button_requests_its_format Scenario.env_ok 7 Scenario.the_session
                  "📹 720p MP4 (50.0MB)" "22" Scenario.started _
                  H1 H2 H3 eq_refl eq_refl eq_refl)).
Defined.

(** A format id that contains [download_] is not recovered from the
    button data. *)
Example format_id_with_prefix_is_cut :
  PyStr.replace "download_" "" (callback_data (InlineKeyboardButton "x" ("download_" ++ "download_hd")))
  = "hd".
Proof. reflexivity. Qed.

(** ** [handle_url] and [cancel_operation] *)

Lemma platform_name_not_empty (d p : string) :
  MediaDownloader.first_match MediaDownloader.supported_platforms d = Some p ->
  String.eqb p "" = false.
Proof.
  unfold MediaDownloader.supported_platforms, MediaDownloader.first_match.
  repeat (destruct (PyStr.contains _ d); [intros [= <-]; reflexivity|]).
  discriminate.
Qed.

Lemma get_platform_name_not_empty
    (netloc : string -> option string) (lower : string -> string) (u p : string) :
  MediaDownloader.get_platform netloc lower u = Ok (Some p) ->
  String.eqb p "" = false.
Proof.
  unfold MediaDownloader.get_platform. destruct (netloc u) as [n|]; [|discriminate].
  intros [= H]. exact (platform_name_not_empty _ _ H).
Qed.

(** X8: a message whose URL is of no supported platform creates no
    session, asks the media source nothing and is answered with the
    unsupported-platform text only. *)
Theorem handle_url_unsupported (e : env) (uid : Z) (message_text : string) (w : world) :
  MediaDownloader.get_platform (netloc_of e) (str_lower e) (str_strip e message_text) = Ok None ->
  exists r evs,
    TelegramBot.handle_url e uid message_text w = (r, emit w evs)
    /\ (evs = [] \/ evs = [EvReply uid Msg.unsupported])
    /\ (raises e AtReplyUnsupported = false ->
        r = Ok tt /\ evs = [EvReply uid Msg.unsupported]).
Proof.
  intros Hplat. unfold TelegramBot.handle_url. rewrite Hplat.
  destruct (call_shape e AtReplyUnsupported (EvReply uid Msg.unsupported) w)
    as (r & evs & Hrun & Hevs).
  exists r, evs. split; [exact Hrun|]. split; [exact Hevs|].
  intros Hok. rewrite (call_ok _ _ _ _ Hok) in Hrun.
  inversion Hrun as [[Hr Htr]]. split; [reflexivity|].
  now apply app_inv_head in Htr.
Qed.

Lemma handle_url_unsupported_witness :
  MediaDownloader.get_platform (netloc_of Scenario.env_ok) (str_lower Scenario.env_ok)
    (str_strip Scenario.env_ok "https://vimeo.com/x") = Ok None
  /\ exists r evs,
       TelegramBot.handle_url Scenario.env_ok 7 "https://vimeo.com/x" Scenario.empty_world
       = (r, emit Scenario.empty_world evs)
       /\ (evs = [] \/ evs = [EvReply 7 Msg.unsupported])
       /\ (raises Scenario.env_ok AtReplyUnsupported = false ->
           r = Ok tt /\ evs = [EvReply 7 Msg.unsupported]).
Proof.
  split; [reflexivity|].
  exact (handle_url_unsupported Scenario.env_ok 7 "https://vimeo.com/x"
           Scenario.empty_world eq_refl).
Defined.

(** X9: when the metadata cannot be extracted, no session is created and
    a session the user already has stays as it is; the user is told that
    the extraction failed. *)
Theorem handle_url_extraction_failed
    (e : env) (uid : Z) (message_text p : string) (w : world) :
  MediaDownloader.get_platform (netloc_of e) (str_lower e) (str_strip e message_text)
  = Ok (Some p) ->
  extract_info e (str_strip e message_text) = None ->
  raises e AtReplyProcessing = false ->
  exists r evs,
    TelegramBot.handle_url e uid message_text w
    = (r, emit w (EvReply uid (Msg.processing p)
                    :: EvExtractInfo (str_strip e message_text) :: evs))
    /\ (forall ev, In ev evs ->
          ev = EvEdit uid Msg.extract_failed None
          \/ ev = EvEdit uid Msg.error_processing None)
    /\ (raises e AtEditExtractFailed = false ->
        r = Ok tt /\ evs = [EvEdit uid Msg.extract_failed None]).
Proof.
  intros Hplat Hinfo Hproc. unfold TelegramBot.handle_url. rewrite Hplat.
  rewrite (get_platform_name_not_empty _ _ _ _ Hplat).
  unfold bind, try_except, TelegramBot.get_video_info, bind, log, ret.
  rewrite (call_ok _ _ _ _ Hproc), Hinfo. unfold call, log.
  destruct (raises e AtEditExtractFailed); [destruct (raises e AtEditError)|]; simpl;
    eexists _, _;
    (split; [unfold emit; simpl; rewrite <- ?app_assoc; simpl; reflexivity|]);
    (split; [intros ev Hev; simpl in Hev;
             repeat (destruct Hev as [<-|Hev]; [tauto|]); destruct Hev|]);
    intros Hx; try discriminate Hx; split; reflexivity.
Qed.

Lemma handle_url_extraction_failed_witness :
  MediaDownloader.get_platform (netloc_of Sample2.env_no_info) (str_lower Sample2.env_no_info)
    (str_strip Sample2.env_no_info "https://youtu.be/gone") = Ok (Some "YouTube")
  /\ user_sessions
       (snd (TelegramBot.handle_url Sample2.env_no_info 7 "https://youtu.be/gone"
               Scenario.started))
     = user_sessions Scenario.started.
Proof.
  split; [reflexivity|].
  destruct (handle_url_extraction_failed Sample2.env_no_info 7 "https://youtu.be/gone"
              "YouTube" Scenario.started eq_refl eq_refl eq_refl)
    as (r & evs & Hrun & _).
  rewrite Hrun. reflexivity.
Defined.

(** The session is stored before the menu is shown. *)
Lemma handle_url_stores (e : env) (uid : Z) (message_text p : string) (i : info) (w : world) :
  MediaDownloader.get_platform (netloc_of e) (str_lower e) (str_strip e message_text)
  = Ok (Some p) ->
  extract_info e (str_strip e message_text) = Some i ->
  raises e AtReplyProcessing = false ->
  exists r evs,
    TelegramBot.handle_url e uid message_text w
    = (r,
       {| user_sessions :=
            <[uid := {| url := str_strip e message_text; s_info := i; platform := p |}]>
              (user_sessions w);
          tmp_dirs := tmp_dirs w;
          trace := (trace w
                    ++ [EvReply uid (Msg.processing p);
                        EvExtractInfo (str_strip e message_text);
                        EvSessionStore uid]
                    ++ evs)%list |})
    /\ (raises e AtEditMenu = false ->
        r = Ok tt
        /\ evs = [EvEdit uid (Msg.format_menu i p) (Some (Menu.create_format_keyboard i))])
    /\ (raises e AtEditMenu = true -> raises e AtEditError = false ->
        r = Ok tt /\ evs = [EvEdit uid Msg.error_processing None]).
Proof.
  intros Hplat Hinfo Hproc. unfold TelegramBot.handle_url. rewrite Hplat.
  rewrite (get_platform_name_not_empty _ _ _ _ Hplat).
  unfold bind, try_except, TelegramBot.get_video_info, bind, log, ret, store_session.
  rewrite (call_ok _ _ _ _ Hproc), Hinfo. unfold call, log.
  destruct (raises e AtEditMenu); [destruct (raises e AtEditError)|]; simpl;
    eexists _, _;
    (split; [rewrite <- ?app_assoc; simpl; reflexivity|]);
    split; intros Hx; try discriminate Hx; try (intros Hy; try discriminate Hy);
    split; reflexivity.
Qed.

Lemma last_markup_app (uid : Z) (tr : list event) (txt : string) (m : option keyboard) :
  MenuState.last_markup uid (tr ++ [EvEdit uid txt m]) = m.
Proof.
  unfold MenuState.last_markup. rewrite fold_left_app. simpl. now rewrite Z.eqb_refl.
Qed.

(** X10: a message with a supported URL whose metadata is extracted
    stores the session of the user (stripped URL, metadata, platform),
    replacing an earlier one and leaving the other users' sessions alone.
    The session is stored before the menu is sent: it is there also when
    sending the menu raises.  When the menu is sent the user sees the
    category menu. *)
Theorem handle_url_starts_session
    (e : env) (uid : Z) (message_text p : string) (i : info) (w : world) :
  MediaDownloader.get_platform (netloc_of e) (str_lower e) (str_strip e message_text)
  = Ok (Some p) ->
  extract_info e (str_strip e message_text) = Some i ->
  raises e AtReplyProcessing = false ->
  let w' := snd (TelegramBot.handle_url e uid message_text w) in
  user_sessions w' !! uid
  = Some {| url := str_strip e message_text; s_info := i; platform := p |}
  /\ (forall u, u <> uid -> user_sessions w' !! u = user_sessions w !! u)
  /\ tmp_dirs w' = tmp_dirs w
  /\ (raises e AtEditMenu = false ->
      fst (TelegramBot.handle_url e uid message_text w) = Ok tt
      /\ MenuState.menu_state_of w' uid = Some MenuState.AwaitingCategory).
Proof.
  intros Hplat Hinfo Hproc w'.
  destruct (handle_url_stores e uid message_text p i w Hplat Hinfo Hproc)
    as (r & evs & Hrun & Hmenu & _).
  subst w'. rewrite Hrun. cbn [fst snd user_sessions tmp_dirs].
  split; [apply lookup_insert_eq|].
  split; [intros u Hu; now apply lookup_insert_ne|].
  split; [reflexivity|].
  intros Hok. destruct (Hmenu Hok) as [-> ->]. split; [reflexivity|].
  unfold MenuState.menu_state_of. cbn [user_sessions trace].
  rewrite lookup_insert_eq.
  change ([EvReply uid (Msg.processing p); EvExtractInfo (str_strip e message_text);
           EvSessionStore uid]
          ++ [EvEdit uid (Msg.format_menu i p) (Some (Menu.create_format_keyboard i))])%list
    with ([EvReply uid (Msg.processing p); EvExtractInfo (str_strip e message_text);
           EvSessionStore uid]
          ++ [] ++ [EvEdit uid (Msg.format_menu i p) (Some (Menu.create_format_keyboard i))])%list.
  rewrite !app_assoc, last_markup_app. reflexivity.
Qed.

Lemma handle_url_starts_session_witness :
  MediaDownloader.get_platform (netloc_of Sample2.env_menu_raises) (str_lower Sample2.env_menu_raises)
    (str_strip Sample2.env_menu_raises " https://youtu.be/abc ") = Ok (Some "YouTube")
  /\ user_sessions
       (snd (TelegramBot.handle_url Sample2.env_menu_raises 7 " https://youtu.be/abc "
               Scenario.empty_world)) !! 7
     = Some {| url := str_strip Sample2.env_menu_raises " https://youtu.be/abc ";
               s_info := Sample.video_info; platform := "YouTube" |}.
Proof.
  split; [reflexivity|].
  exact (proj1 (handle_url_starts_session Sample2.env_menu_raises 7 " https://youtu.be/abc "
                  "YouTube" Sample.video_info Scenario.empty_world
                  eq_refl eq_refl eq_refl)).
Defined.

Example menu_raises_session_stays :
  TelegramBot.handle_url Sample2.env_menu_raises 7 " https://youtu.be/abc " Scenario.empty_world
  = (Ok tt,
     {| user_sessions := {[ 7 := Scenario.the_session ]}; tmp_dirs := ∅;
        trace := [EvReply 7 (Msg.processing "YouTube"); EvExtractInfo "https://youtu.be/abc";
                  EvSessionStore 7; EvEdit 7 Msg.error_processing None] |}).
Proof. vm_compute. reflexivity. Qed.

Lemma cancel_button_sessions (e : env) (uid : Z) (w : world) :
  raises e AtAnswer = false ->
  user_sessions (snd (TelegramBot.handle_callback e uid "cancel" w))
  = delete uid (user_sessions w).
Proof.
  intros Hans. unfold TelegramBot.handle_callback, bind, call, log, del_session_if_present.
  rewrite Hans. simpl.
  destruct (user_sessions w !! uid) eqn:Hs; simpl;
    destruct (raises e AtEditCancelled); simpl;
    first [reflexivity | now rewrite (delete_id _ _ Hs)].
Qed.

(** X11: starting a session and cancelling it leaves the session table
    as it would be without the user: an earlier session of the user is
    gone too, the other users' sessions are as before. *)
Theorem url_then_cancel_round_trip
    (e e' : env) (uid : Z) (message_text p : string) (i : info) (w : world) :
  MediaDownloader.get_platform (netloc_of e) (str_lower e) (str_strip e message_text)
  = Ok (Some p) ->
  extract_info e (str_strip e message_text) = Some i ->
  raises e AtReplyProcessing = false ->
  raises e' AtAnswer = false ->
  user_sessions
    (snd (TelegramBot.handle_callback e' uid "cancel"
            (snd (TelegramBot.handle_url e uid message_text w))))
  = delete uid (user_sessions w).
Proof.
  intros Hplat Hinfo Hproc Hans.
  rewrite (cancel_button_sessions _ _ _ Hans).
  destruct (handle_url_stores e uid message_text p i w Hplat Hinfo Hproc)
    as (r & evs & Hrun & _).
  rewrite Hrun. cbn [snd user_sessions]. apply delete_insert_eq.
Qed.

Lemma url_then_cancel_round_trip_witness :
  MediaDownloader.get_platform (netloc_of Scenario.env_ok) (str_lower Scenario.env_ok)
    (str_strip Scenario.env_ok " https://youtu.be/abc ") = Ok (Some "YouTube")
  /\ user_sessions
       (snd (TelegramBot.handle_callback Scenario.env_ok 7 "cancel"
               (snd (TelegramBot.handle_url Scenario.env_ok 7 " https://youtu.be/abc "
                       Scenario.empty_world))))
     = delete 7 (user_sessions Scenario.empty_world).
Proof.
  split; [reflexivity|].
  exact (url_then_cancel_round_trip Scenario.env_ok Scenario.env_ok 7
           " https://youtu.be/abc " "YouTube" Sample.video_info Scenario.empty_world
           eq_refl eq_refl eq_refl eq_refl).
Defined.

(** X12: the /cancel command removes the session of the user and nothing
    else.  It confirms the cancellation when there was a session and says
    that there is nothing to cancel when there was none. *)
Theorem cancel_command_spec (e : env) (uid : Z) (w : world) :
  let r := TelegramBot.cancel_operation e uid w in
  user_sessions (snd r) = delete uid (user_sessions w)
  /\ (forall u, u <> uid -> user_sessions (snd r) !! u = user_sessions w !! u)
  /\ tmp_dirs (snd r) = tmp_dirs w
  /\ (is_Some (user_sessions w !! uid) -> raises e AtReplyCancelled = false ->
      fst r = Ok tt
      /\ trace (snd r) = (trace w ++ [EvSessionDel uid; EvReply uid Msg.cancelled])%list)
  /\ (user_sessions w !! uid = None -> raises e AtReplyNoOperation = false ->
      r = (Ok tt, emit w [EvReply uid Msg.no_operation])).
Proof.
  intros r. subst r.
  unfold TelegramBot.cancel_operation, bind, call, log, del_session_if_present.
  destruct (user_sessions w !! uid) eqn:Hs; simpl.
  - destruct (raises e AtReplyCancelled); simpl;
      (split; [reflexivity|]);
      (split; [intros u Hu; now apply lookup_delete_ne|]);
      (split; [reflexivity|]);
      (split; [intros _ Hx;
               first [discriminate Hx | split; [reflexivity | now rewrite <- app_assoc]]
              | intros Hx; discriminate Hx]).
  - destruct (raises e AtReplyNoOperation); simpl;
      (split; [now rewrite (delete_id _ _ Hs)|]);
      (split; [reflexivity|]);
      (split; [reflexivity|]);
      (split; [intros [x Hx]; discriminate Hx
              | intros _ Hx; try discriminate Hx; reflexivity]).
Qed.

Example cancel_command_with_session :
  TelegramBot.cancel_operation Scenario.env_ok 7 Scenario.started
  = (Ok tt,
     {| user_sessions := ∅; tmp_dirs := ∅;
        trace := (trace Scenario.started ++ [EvSessionDel 7; EvReply 7 Msg.cancelled])%list |}).
Proof. vm_compute. reflexivity. Qed.

(** ** [handle_callback]: what a button press can change *)

Lemma call_frame (e : env) (st : site) (ev : event) (w : world) :
  user_sessions (snd (call e st ev w)) = user_sessions w
  /\ tmp_dirs (snd (call e st ev w)) = tmp_dirs w.
Proof. unfold call, log. destruct (raises e st); split; reflexivity. Qed.

Lemma download_and_send_frame (e : env) (uid : Z) (s : session) (fid : string) (w : world) :
  let w' := snd (TelegramBot.download_and_send e uid s fid w) in
  (user_sessions w' = user_sessions w \/ user_sessions w' = delete uid (user_sessions w))
  /\ (mkdtemp_name e ∉ tmp_dirs w -> tmp_dirs w' = tmp_dirs w).
Proof.
  intros w'. subst w'.
  destruct (raises e AtEditDownloading) eqn:Hedit;
    [|destruct (raises e AtMkdtemp) eqn:Hmk].
  - destruct (download_not_begun e uid s fid w (or_introl Hedit)) as (evs & Hrun & _).
    rewrite Hrun. split; [now left | reflexivity].
  - destruct (download_not_begun e uid s fid w (or_intror Hmk)) as (evs & Hrun & _).
    rewrite Hrun. split; [now left | reflexivity].
  - destruct (download_and_send_begun e uid s fid w Hedit Hmk) as (r & mid & Hrun & _).
    rewrite Hrun. cbn [snd user_sessions tmp_dirs]. split; [now right|].
    intros Hfresh. apply set_eq. intros x.
    rewrite elem_of_difference, elem_of_union, !elem_of_singleton.
    split; [tauto|]. intros Hx. split; [now right | congruence].
Qed.

(** X13: a button press never creates or alters a session: after any
    press, with any data and whatever the collaborators do, the session
    table is the one before or the one before without the pressing user;
    the other users' sessions are untouched, and no temporary directory
    is left behind. *)
Theorem handle_callback_frame (e : env) (uid : Z) (data : string) (w : world) :
  let w' := snd (TelegramBot.handle_callback e uid data w) in
  (user_sessions w' = user_sessions w \/ user_sessions w' = delete uid (user_sessions w))
  /\ (forall u, u <> uid -> user_sessions w' !! u = user_sessions w !! u)
  /\ (mkdtemp_name e ∉ tmp_dirs w -> tmp_dirs w' = tmp_dirs w).
Proof.
  intros w'.
  assert (Hmain :
    (user_sessions w' = user_sessions w \/ user_sessions w' = delete uid (user_sessions w))
    /\ (mkdtemp_name e ∉ tmp_dirs w -> tmp_dirs w' = tmp_dirs w)).
  { subst w'. unfold TelegramBot.handle_callback, bind, read.
    destruct (raises e AtAnswer) eqn:Hans.
    { rewrite (call_raised _ _ _ _ Hans). split; [now left | reflexivity]. }
    rewrite (call_ok _ _ _ _ Hans).
    destruct (String.eqb data "cancel").
    { unfold del_session_if_present.
      change (user_sessions (emit w [EvAnswer uid])) with (user_sessions w).
      destruct (user_sessions w !! uid) eqn:Hs.
      - match goal with |- context [call e ?st ?ev ?w1] =>
          destruct (call_frame e st ev w1) as [Hu Ht]; rewrite Hu, Ht end.
        split; [now right | reflexivity].
      - match goal with |- context [call e ?st ?ev ?w1] =>
          destruct (call_frame e st ev w1) as [Hu Ht]; rewrite Hu, Ht end.
        split; [now left | reflexivity]. }
    change (user_sessions (emit w [EvAnswer uid]) !! uid) with (user_sessions w !! uid).
    destruct (user_sessions w !! uid) as [s|].
    2:{ match goal with |- context [call e ?st ?ev ?w1] =>
          destruct (call_frame e st ev w1) as [Hu Ht]; rewrite Hu, Ht end.
        split; [now left | reflexivity]. }
    destruct (String.eqb data "back").
    { match goal with |- context [call e ?st ?ev ?w1] =>
        destruct (call_frame e st ev w1) as [Hu Ht]; rewrite Hu, Ht end.
      split; [now left | reflexivity]. }
    destruct (PyStr.startswith "category_" data).
    { match goal with |- context [call e ?st ?ev ?w1] =>
        destruct (call_frame e st ev w1) as [Hu Ht]; rewrite Hu, Ht end.
      split; [now left | reflexivity]. }
    destruct (PyStr.startswith "download_" data).
    { exact (download_and_send_frame e uid s _ (emit w [EvAnswer uid])). }
    split; [now left | reflexivity]. }
  destruct Hmain as [Hs Ht]. split; [exact Hs|]. split; [|exact Ht].
  intros u Hu. destruct Hs as [-> | ->]; [reflexivity | now apply lookup_delete_ne].
Qed.

Lemma quality_keyboard_not_category_menu (i : info) (category : string) :
  MenuState.is_category_menu (Menu.create_quality_keyboard i category) = false.
Proof.
  unfold Menu.create_quality_keyboard. rewrite quality_rows_selected.
  destruct (Ranking.selected i category) as [|f l]; [reflexivity|].
  unfold Ranking.row_of. simpl. destruct (String.eqb category "audio"); reflexivity.
Qed.

(** X14: the menu on screen follows the presses: with a session, Back
    shows the category menu again (also when it is already shown) and a
    category button shows the quality menu built from the metadata of the
    session for the text after [category_]; neither changes the session
    table. *)
Theorem menu_navigation (e : env) (uid : Z) (s : session) (data : string) (w : world) :
  user_sessions w !! uid = Some s ->
  raises e AtAnswer = false ->
  let w' := snd (TelegramBot.handle_callback e uid data w) in
  (data = "back" -> raises e AtEditBack = false ->
   user_sessions w' = user_sessions w
   /\ MenuState.last_markup uid (trace w') = Some (Menu.create_format_keyboard (s_info s))
   /\ MenuState.menu_state_of w' uid = Some MenuState.AwaitingCategory)
  /\ (PyStr.startswith "category_" data = true -> raises e AtEditCategory = false ->
      user_sessions w' = user_sessions w
      /\ MenuState.last_markup uid (trace w')
         = Some (Menu.create_quality_keyboard (s_info s)
                   (PyStr.replace "category_" "" data))
      /\ MenuState.menu_state_of w' uid = Some MenuState.AwaitingQuality).
Proof.
  intros Hs Hans w'. subst w'. split.
  - intros -> Hback.
    unfold TelegramBot.handle_callback, bind, read.
    rewrite (call_ok _ _ _ _ Hans).
    replace (String.eqb "back" "cancel") with false by reflexivity.
    replace (String.eqb "back" "back") with true by reflexivity.
    cbv beta.
    change (user_sessions (emit w [EvAnswer uid]) !! uid) with (user_sessions w !! uid).
    rewrite Hs, (call_ok _ _ _ _ Hback). cbn [snd].
    split; [reflexivity|].
    assert (Hlast : MenuState.last_markup uid
              (trace (emit (emit w [EvAnswer uid])
                        [EvEdit uid (Msg.back_menu (s_info s))
                           (Some (Menu.create_format_keyboard (s_info s)))]))
            = Some (Menu.create_format_keyboard (s_info s)))
      by (cbn [trace emit]; apply last_markup_app).
    split; [exact Hlast|].
    unfold MenuState.menu_state_of. rewrite Hlast.
    change (user_sessions (emit (emit w [EvAnswer uid]) _) !! uid)
      with (user_sessions w !! uid).
    rewrite Hs. reflexivity.
  - intros Hcat Hedit.
    unfold TelegramBot.handle_callback, bind, read.
    rewrite (call_ok _ _ _ _ Hans).
    pose proof Hcat as Hpre. apply startswith_iff in Hpre as [t ->].
    replace (String.eqb ("category_" ++ t) "cancel") with false by reflexivity.
    replace (String.eqb ("category_" ++ t) "back") with false by reflexivity.
    cbv beta.
    change (user_sessions (emit w [EvAnswer uid]) !! uid) with (user_sessions w !! uid).
    rewrite Hs, Hcat, (call_ok _ _ _ _ Hedit). cbn [snd].
    split; [reflexivity|].
    match goal with |- MenuState.last_markup uid (trace ?w2) = Some ?kb /\ _ =>
      assert (Hlast : MenuState.last_markup uid (trace w2) = Some kb)
        by (cbn [trace emit]; apply last_markup_app)
    end.
    split; [exact Hlast|].
    unfold MenuState.menu_state_of. rewrite Hlast.
    change (user_sessions (emit (emit w [EvAnswer uid]) _) !! uid)
      with (user_sessions w !! uid).
    rewrite Hs, quality_keyboard_not_category_menu. reflexivity.
Qed.

Lemma menu_navigation_witness :
  user_sessions Scenario.started !! 7 = Some Scenario.the_session
  /\ MenuState.last_markup 7
       (trace (snd (TelegramBot.handle_callback Scenario.env_ok 7 "category_video"
                      Scenario.started)))
     = Some (Menu.create_quality_keyboard Sample.video_info
               (PyStr.replace "category_" "" "category_video")).
Proof.
  assert (H1 : user_sessions Scenario.started !! 7 = Some Scenario.the_session)
    by (vm_compute; reflexivity).
  split; [exact H1|].
  exact (proj1 (proj2 (proj2 (menu_navigation Scenario.env_ok 7 Scenario.the_session
                                "category_video" Scenario.started H1 eq_refl)
                         eq_refl eq_refl))).
Defined.

(** A category other than audio and video gives a menu without quality
    rows, titled as the video menu. *)
Example unknown_category_press :
  TelegramBot.handle_callback Scenario.env_ok 7 "category_x" Scenario.started
  = (Ok tt,
     emit Scenario.started
       [EvAnswer 7;
        EvEdit 7 (Msg.quality_menu Sample.video_info "x") (Some [Menu.back_cancel_row])]).
Proof. vm_compute. reflexivity. Qed.

(** ** [download_and_send]: what is delivered *)

Lemma guarded_body_delivery (e : env) (uid : Z) (s : session) (fid : string) (w : world) :
  exists r mid,
    try_except (TelegramBot.download_body e uid s fid (mkdtemp_name e))
               (call e AtEditHandler (EvEdit uid Msg.download_failed None)) w
    = (r, emit w (EvDownload (url s) fid (mkdtemp_name e) :: mid))
    /\ delivery_ok e uid s fid r mid.
Proof.
  unfold try_except, TelegramBot.download_body, bind, call, log, ret.
  destruct (download_result e (url s) fid (mkdtemp_name e)) as [p|] eqn:Hres.
  - destruct (TelegramBot.download_missing e (Some p)) eqn:Hmiss;
      [|destruct (raises e AtGetsize);
        [|cbn [default from_option id];
          destruct (Z.ltb_spec MAX_FILE_SIZE (getsize e p)) as [Hbig|Hle];
          [|destruct (raises e AtEditUploading); [|destruct (raises e AtOpen);
            [|destruct (TelegramBot.is_audio_path p) eqn:Haud;
              (destruct (raises e AtReplyMedia);
               [|destruct (raises e AtEditCompleted)])]]]]];
      try destruct (raises e AtEditFailed); try destruct (raises e AtEditTooLarge);
      simpl; try destruct (raises e AtEditHandler); simpl;
      eexists _, _;
      (split; [unfold emit; simpl; rewrite <- ?app_assoc; simpl; reflexivity|]);
      (split; [simpl; lia|]);
      (split;
       [simpl; intros Hc; first [discriminate Hc | split; [reflexivity|]; eexists; split;
                                  [right; left; reflexivity | reflexivity]]
       |intros ev Hin Hdel; simpl in Hin;
        repeat (destruct Hin as [<-|Hin];
                [first [discriminate Hdel
                       | exists p; rewrite ?Haud; repeat split; assumption]|]);
        destruct Hin]).
  - simpl. destruct (raises e AtEditFailed); simpl;
      try destruct (raises e AtEditHandler); simpl;
      eexists _, _;
      (split; [unfold emit; simpl; rewrite <- ?app_assoc; simpl; reflexivity|]);
      (split; [simpl; lia|]);
      (split;
       [simpl; intros Hc; discriminate Hc
       |intros ev Hin Hdel; simpl in Hin;
        repeat (destruct Hin as [<-|Hin]; [discriminate Hdel|]); destruct Hin]).
Qed.

Lemma download_and_send_begun_delivery
    (e : env) (uid : Z) (s : session) (fid : string) (w : world) :
  raises e AtEditDownloading = false ->
  raises e AtMkdtemp = false ->
  exists r mid,
    TelegramBot.download_and_send e uid s fid w
    = (r,
       {| user_sessions := delete uid (user_sessions w);
          tmp_dirs := ({[ mkdtemp_name e ]} ∪ tmp_dirs w) ∖ {[ mkdtemp_name e ]};
          trace := (trace w
                    ++ [EvEdit uid Msg.downloading None; EvMkdtemp (mkdtemp_name e);
                        EvDownload (url s) fid (mkdtemp_name e)]
                    ++ mid
                    ++ [EvRmtree (mkdtemp_name e)]
                    ++ (match user_sessions w !! uid with
                        | Some _ => [EvSessionDel uid]
                        | None => []
                        end))%list |})
    /\ delivery_ok e uid s fid r mid.
Proof.
  intros Hedit Hmk.
  unfold TelegramBot.download_and_send, bind, mkdtemp.
  rewrite (call_ok _ _ _ _ Hedit), Hmk.
  unfold try_finally.
  match goal with
  | |- context [try_except _ _ ?w1] =>
      destruct (guarded_body_delivery e uid s fid w1) as (r & mid & Hrun & Hmid)
  end.
  rewrite Hrun, download_cleanup_spec by exact e.
  exists r, mid. split; [|exact Hmid].
  f_equal. unfold emit; simpl.
  rewrite bool_decide_eq_true_2 by (apply elem_of_union_l, elem_of_singleton; reflexivity).
  f_equal. rewrite <- !app_assoc. reflexivity.
Qed.

(** X15: whatever the download, the file system and the channel do, a
    run of [download_and_send] delivers at most one file; it delivers only
    the file the download produced, and only if that file exists and is
    not larger than [MAX_FILE_SIZE], as audio or as video according to its
    extension; the completion message is sent only after a delivery. *)
Theorem download_delivery_invariants
    (e : env) (uid : Z) (s : session) (fid : string) (w : world) :
  exists evs,
    trace (snd (TelegramBot.download_and_send e uid s fid w)) = (trace w ++ evs)%list
    /\ delivery_ok e uid s fid (fst (TelegramBot.download_and_send e uid s fid w)) evs.
Proof.
  destruct (raises e AtEditDownloading) eqn:Hedit;
    [|destruct (raises e AtMkdtemp) eqn:Hmk].
  - destruct (download_not_begun e uid s fid w (or_introl Hedit)) as (evs & Hrun & Hevs).
    rewrite Hrun. exists evs. split; [reflexivity|].
    destruct Hevs as [-> | ->]; (split; [simpl; lia|]);
      (split; [simpl; intros Hc; discriminate Hc|]);
      intros ev Hin Hdel; simpl in Hin;
      repeat (destruct Hin as [<-|Hin]; [discriminate Hdel|]); destruct Hin.
  - destruct (download_not_begun e uid s fid w (or_intror Hmk)) as (evs & Hrun & Hevs).
    rewrite Hrun. exists evs. split; [reflexivity|].
    destruct Hevs as [-> | ->]; (split; [simpl; lia|]);
      (split; [simpl; intros Hc; discriminate Hc|]);
      intros ev Hin Hdel; simpl in Hin;
      repeat (destruct Hin as [<-|Hin]; [discriminate Hdel|]); destruct Hin.
  - destruct (download_and_send_begun_delivery e uid s fid w Hedit Hmk)
      as (r & mid & Hrun & Hone & Hcompl & Hdeliv).
    rewrite Hrun. cbn [fst snd trace].
    eexists. split; [reflexivity|].
    set (tail := ([EvRmtree (mkdtemp_name e)]
                  ++ match user_sessions w !! uid with
                     | Some _ => [EvSessionDel uid]
                     | None => []
                     end)%list).
    assert (Htail_del : List.filter is_delivery tail = []).
    { subst tail. destruct (user_sessions w !! uid); reflexivity. }
    assert (Htail_compl : existsb is_completed tail = false).
    { subst tail. destruct (user_sessions w !! uid); reflexivity. }
    assert (Htail_in : forall ev, In ev tail -> is_delivery ev = false).
    { subst tail. intros ev Hin.
      destruct (user_sessions w !! uid); simpl in Hin;
        repeat (destruct Hin as [<-|Hin]; [reflexivity|]); destruct Hin. }
    split; [|split].
    + simpl. rewrite List.filter_app, Htail_del, app_nil_r. exact Hone.
    + simpl. rewrite existsb_app, Htail_compl, orb_false_r. intros Hc.
      destruct (Hcompl Hc) as [Hr (ev & Hin & Hdel)]. split; [exact Hr|].
      exists ev. split; [|exact Hdel].
      simpl. right. right. right. apply in_or_app. now left.
    + intros ev Hin Hdel. simpl in Hin.
      repeat (destruct Hin as [<-|Hin]; [discriminate Hdel|]).
      apply in_app_or in Hin as [Hin|Hin]; [now apply Hdeliv|].
      rewrite (Htail_in ev Hin) in Hdel. discriminate Hdel.
Qed.

(** X16: when the download gives an existing file of at most
    [MAX_FILE_SIZE] bytes and the channel accepts the calls, the file is
    delivered once, as audio when its lowercased name ends with one of the
    four audio extensions and as video otherwise; then the completion
    message is sent, the directory is removed and the session deleted. *)
Theorem download_delivers_file
    (e : env) (uid : Z) (s : session) (fid p : string) (w : world) :
  is_Some (user_sessions w !! uid) ->
  (forall st, raises e st = false) ->
  download_result e (url s) fid (mkdtemp_name e) = Some p ->
  TelegramBot.download_missing e (Some p) = false ->
  getsize e p <= MAX_FILE_SIZE ->
  let d := mkdtemp_name e in
  TelegramBot.download_and_send e uid s fid w
  = (Ok tt,
     {| user_sessions := delete uid (user_sessions w);
        tmp_dirs := ({[ d ]} ∪ tmp_dirs w) ∖ {[ d ]};
        trace := (trace w
                  ++ [EvEdit uid Msg.downloading None; EvMkdtemp d;
                      EvDownload (url s) fid d;
                      EvEdit uid Msg.uploading None;
                      (if TelegramBot.is_audio_path p
                       then EvReplyAudio uid p (Msg.caption s)
                              (default "download" (title (s_info s)))
                       else EvReplyVideo uid p (Msg.caption s));
                      EvEdit uid Msg.completed None;
                      EvRmtree d; EvSessionDel uid])%list |}).
Proof.
  intros [s0 Hs0] Hok Hres Hmiss Hle d. subst d.
  apply Z.ltb_ge in Hle.
  unfold TelegramBot.download_and_send, bind, mkdtemp.
  rewrite (call_ok _ _ _ _ (Hok _)), (Hok AtMkdtemp).
  unfold try_finally, try_except, TelegramBot.download_body, bind, log, ret, call.
  rewrite Hres, Hmiss, !Hok. cbn [default from_option id]. rewrite Hle.
  destruct (TelegramBot.is_audio_path p);
    unfold log; cbv beta iota;
    rewrite download_cleanup_spec by exact e;
    cbn [fst snd user_sessions tmp_dirs trace emit]; rewrite Hs0;
    rewrite bool_decide_eq_true_2
      by (apply elem_of_union_l, elem_of_singleton; reflexivity);
    f_equal; f_equal; rewrite <- !app_assoc; reflexivity.
Qed.

Lemma download_delivers_file_witness :
  is_Some (user_sessions Scenario.started !! 7)
  /\ getsize Scenario.env_ok "/tmp/tmpk3v9/Clip.mp4" <= MAX_FILE_SIZE
  /\ fst (TelegramBot.download_and_send Scenario.env_ok 7 Scenario.the_session "22"
            Scenario.started) = Ok tt.
Proof.
  assert (H1 : is_Some (user_sessions Scenario.started !! 7))
    by (exists Scenario.the_session; vm_compute; reflexivity).
  assert (H2 : getsize Scenario.env_ok "/tmp/tmpk3v9/Clip.mp4" <= MAX_FILE_SIZE)
    by (vm_compute; discriminate).
  split; [exact H1|]. split; [exact H2|].
  rewrite (download_delivers_file Scenario.env_ok 7 Scenario.the_session "22"
             "/tmp/tmpk3v9/Clip.mp4" Scenario.started H1 (fun _ => eq_refl)
             eq_refl eq_refl H2).
  reflexivity.
Defined.

(** ** Titles and file names *)

Lemma take_chars_prefix (n : nat) (s : string) :
  (PyStr.char_length (PyStr.take_chars n s) <= n)%nat
  /\ (exists rest,
        s = PyStr.take_chars n s ++ rest
        /\ match rest with
           | EmptyString => True
           | String c _ => PyStr.is_continuation c = false
           end)
  /\ ((PyStr.char_length s <= n)%nat -> PyStr.take_chars n s = s).
Proof.
  revert n; induction s as [|c s IH]; intros n.
  - simpl. split; [lia|]. split; [exists EmptyString; split; [reflexivity | exact I]|].
    reflexivity.
  - cbn [PyStr.take_chars PyStr.char_length].
    destruct (PyStr.is_continuation c) eqn:Hc.
    + destruct (IH n) as (Hlen & (rest & Hrest & Hstart) & Hshort).
      cbn [PyStr.char_length]. rewrite Hc.
      split; [exact Hlen|]. split.
      * exists rest. split; [|exact Hstart]. rewrite Hrest at 1. reflexivity.
      * intros H. now rewrite (Hshort H).
    + destruct n as [|k].
      * cbn [PyStr.char_length]. split; [lia|]. split.
        -- exists (String c s). split; [reflexivity | exact Hc].
        -- intros H. lia.
      * destruct (IH k) as (Hlen & (rest & Hrest & Hstart) & Hshort).
        cbn [PyStr.char_length]. rewrite Hc.
        split; [lia|]. split.
        -- exists rest. split; [|exact Hstart]. rewrite Hrest at 1. reflexivity.
        -- intros H. rewrite Hshort; [reflexivity | lia].
Qed.

(** X17: the title shown in the menus is the title of the metadata (or
    "Unknown Title" when there is none) cut to at most fifty characters,
    counted as characters and not as bytes: a prefix of it that does not
    end inside a character, and the whole of it when it has at most fifty
    characters. *)
Theorem short_title_is_prefix (i : info) :
  let full := default "Unknown Title" (title i) in
  (PyStr.char_length (Msg.short_title i) <= 50)%nat
  /\ (exists rest,
        full = Msg.short_title i ++ rest
        /\ match rest with
           | EmptyString => True
           | String c _ => PyStr.is_continuation c = false
           end)
  /\ ((PyStr.char_length full <= 50)%nat -> Msg.short_title i = full).
Proof. intros full. unfold Msg.short_title. apply take_chars_prefix. Qed.

(** A title of 24 characters of three bytes each is shown whole. *)
Example short_title_three_byte_characters :
  let t := "日本語の動画タイトル日本語の動画タイトル日本語の" in
  String.length t = 72%nat
  /\ PyStr.char_length t = 24%nat
  /\ Msg.short_title {| title := Some t; duration := Missing; formats := None |} = t.
Proof. vm_compute. repeat split. Qed.

Lemma str_app_assoc (a b c : string) : (a ++ b) ++ c = a ++ (b ++ c).
Proof.
  induction a as [|x a IH]; [reflexivity|].
  change (String x ((a ++ b) ++ c) = String x (a ++ (b ++ c))). now rewrite IH.
Qed.

Lemma str_app_empty_r (a : string) : a ++ "" = a.
Proof.
  induction a as [|x a IH]; [reflexivity|].
  change (String x (a ++ "") = String x a). now rewrite IH.
Qed.

Lemma rev_onto_acc (s acc : string) :
  PyStr.rev_onto s acc = PyStr.rev_onto s EmptyString ++ acc.
Proof.
  revert acc; induction s as [|c s IH]; intros acc; [reflexivity|].
  cbn [PyStr.rev_onto].
  rewrite (IH (String c acc)), (IH (String c EmptyString)), str_app_assoc.
  reflexivity.
Qed.

Lemma rev_onto_append (a b : string) :
  PyStr.rev_onto (a ++ b) EmptyString
  = PyStr.rev_onto b EmptyString ++ PyStr.rev_onto a EmptyString.
Proof.
  induction a as [|c a IH].
  - cbn [PyStr.rev_onto]. rewrite str_app_empty_r. reflexivity.
  - change (String c a ++ b) with (String c (a ++ b)). cbn [PyStr.rev_onto].
    rewrite (rev_onto_acc (a ++ b)), IH, (rev_onto_acc a (String c EmptyString)).
    apply str_app_assoc.
Qed.

Lemma rev_onto_involutive (s : string) :
  PyStr.rev_onto (PyStr.rev_onto s EmptyString) EmptyString = s.
Proof.
  induction s as [|c s IH]; [reflexivity|].
  cbn [PyStr.rev_onto].
  rewrite (rev_onto_acc s), rev_onto_append, IH. reflexivity.
Qed.

Lemma reversed_startswith_iff (suffix s : string) :
  PyStr.startswith (PyStr.rev_onto suffix EmptyString) (PyStr.rev_onto s EmptyString) = true
  <-> exists stem, s = stem ++ suffix.
Proof.
  rewrite startswith_iff. split.
  - intros [t Ht]. exists (PyStr.rev_onto t EmptyString).
    rewrite <- (rev_onto_involutive s), Ht, rev_onto_append, rev_onto_involutive.
    reflexivity.
  - intros [stem ->]. exists (PyStr.rev_onto stem EmptyString). apply rev_onto_append.
Qed.

(** X18: a downloaded file is sent as audio exactly when its name, with
    the ASCII letters lowercased, ends with [.mp3], [.m4a], [.wav] or
    [.flac]. *)
Theorem audio_path_iff (p : string) :
  TelegramBot.is_audio_path p = true <->
  exists stem extension,
    In extension [".mp3"; ".m4a"; ".wav"; ".flac"]
    /\ PyStr.lower p = stem ++ extension.
Proof.
  unfold TelegramBot.is_audio_path. cbv zeta.
  rewrite !orb_true_iff.
  change "3pm." with (PyStr.rev_onto ".mp3" EmptyString).
  change "a4m." with (PyStr.rev_onto ".m4a" EmptyString).
  change "vaw." with (PyStr.rev_onto ".wav" EmptyString).
  change "calf." with (PyStr.rev_onto ".flac" EmptyString).
  rewrite !reversed_startswith_iff. split.
  - intros [[[[stem H] | [stem H]] | [stem H]] | [stem H]];
      eexists stem, _; (split; [|exact H]); simpl; tauto.
  - intros (stem & extension & Hin & Heq). simpl in Hin.
    destruct Hin as [<-|[<-|[<-|[<-|[]]]]]; eauto 6.
Qed.

Example audio_path_upper_case : TelegramBot.is_audio_path "/tmp/x/Song.MP3" = true.
Proof. reflexivity. Qed.

(** ** [download_and_send]: the final status; [handle_url]: its frame *)

Lemma guarded_body_final (e : env) (uid : Z) (s : session) (fid d : string) (w : world) :
  raises e AtEditHandler = false ->
  exists mid txt,
    try_except (TelegramBot.download_body e uid s fid d)
               (call e AtEditHandler (EvEdit uid Msg.download_failed None)) w
    = (Ok tt, emit w (EvDownload (url s) fid d :: mid))
    /\ last mid = Some (EvEdit uid txt None)
    /\ (txt = Msg.completed \/ txt = Msg.download_failed
        \/ exists size, MAX_FILE_SIZE < size /\ txt = Msg.too_large size).
Proof.
  intros Hh.
  unfold try_except, TelegramBot.download_body, bind, call, log, ret. rewrite Hh.
  destruct (TelegramBot.download_missing e _);
    [|destruct (raises e AtGetsize);
      [|destruct (Z.ltb_spec MAX_FILE_SIZE (getsize e (default "" (download_result e (url s) fid d))));
        [|destruct (raises e AtEditUploading); [|destruct (raises e AtOpen);
          [|destruct (TelegramBot.is_audio_path _); (destruct (raises e AtReplyMedia);
            [|destruct (raises e AtEditCompleted)])]]]]];
    try destruct (raises e AtEditFailed); try destruct (raises e AtEditTooLarge);
    simpl;
    eexists _, _;
    (split; [unfold emit; simpl; rewrite <- ?app_assoc; simpl; reflexivity|]);
    (split; [reflexivity|]);
    first [left; reflexivity | right; left; reflexivity
          | right; right; eexists; split; [eassumption | reflexivity]].
Qed.

(** X19: a download that has begun never lets an exception of the
    download, the size check or the delivery escape, as long as the failure
    message can be sent: [download_and_send] returns normally, and the last
    message of the run tells the user that the download completed, that it
    failed, or that the file is too large. *)
Theorem download_ends_with_status
    (e : env) (uid : Z) (s : session) (fid : string) (w : world) :
  raises e AtEditDownloading = false ->
  raises e AtMkdtemp = false ->
  raises e AtEditHandler = false ->
  let d := mkdtemp_name e in
  exists mid txt,
    TelegramBot.download_and_send e uid s fid w
    = (Ok tt,
       {| user_sessions := delete uid (user_sessions w);
          tmp_dirs := ({[ d ]} ∪ tmp_dirs w) ∖ {[ d ]};
          trace := (trace w
                    ++ [EvEdit uid Msg.downloading None; EvMkdtemp d;
                        EvDownload (url s) fid d]
                    ++ mid
                    ++ [EvRmtree d]
                    ++ (match user_sessions w !! uid with
                        | Some _ => [EvSessionDel uid]
                        | None => []
                        end))%list |})
    /\ last mid = Some (EvEdit uid txt None)
    /\ (txt = Msg.completed \/ txt = Msg.download_failed
        \/ exists size, MAX_FILE_SIZE < size /\ txt = Msg.too_large size).
Proof.
  intros Hedit Hmk Hh d. subst d.
  unfold TelegramBot.download_and_send, bind, mkdtemp.
  rewrite (call_ok _ _ _ _ Hedit), Hmk.
  unfold try_finally.
  match goal with
  | |- context [try_except _ _ ?w1] =>
      destruct (guarded_body_final e uid s fid (mkdtemp_name e) w1 Hh)
        as (mid & txt & Hrun & Hlast & Htxt)
  end.
  rewrite Hrun, download_cleanup_spec by exact e.
  exists mid, txt. split; [|split; [exact Hlast | exact Htxt]].
  f_equal. unfold emit; simpl.
  rewrite bool_decide_eq_true_2 by (apply elem_of_union_l, elem_of_singleton; reflexivity).
  f_equal. rewrite <- !app_assoc. reflexivity.
Qed.

Lemma download_ends_with_status_witness :
  raises Scenario.env_delivery_raises AtEditDownloading = false
  /\ raises Scenario.env_delivery_raises AtMkdtemp = false
  /\ raises Scenario.env_delivery_raises AtEditHandler = false
  /\ fst (TelegramBot.download_and_send Scenario.env_delivery_raises 7
            Scenario.the_session "22" Scenario.started) = Ok tt.
Proof.
  split; [reflexivity|]. split; [reflexivity|]. split; [reflexivity|].
  destruct (download_ends_with_status Scenario.env_delivery_raises 7
              Scenario.the_session "22" Scenario.started eq_refl eq_refl eq_refl)
    as (mid & txt & Hrun & _).
  rewrite Hrun. reflexivity.
Defined.

Example no_file_reported :
  TelegramBot.download_and_send Sample2.env_no_file 7 Scenario.the_session "22"
    Scenario.started
  = (Ok tt,
     {| user_sessions := ∅; tmp_dirs := ∅;
        trace := (trace Scenario.started
                  ++ [EvEdit 7 Msg.downloading None; EvMkdtemp "/tmp/tmpk3v9";
                      EvDownload "https://youtu.be/abc" "22" "/tmp/tmpk3v9";
                      EvEdit 7 Msg.download_failed None;
                      EvRmtree "/tmp/tmpk3v9"; EvSessionDel 7])%list |}).
Proof. vm_compute. reflexivity. Qed.

(** X20: a text message never deletes a session and never touches
    another user's: after [handle_url], whatever the collaborators do, the
    session table is the one before or the one before with the sender's
    entry set; no temporary directory is created. *)
Theorem handle_url_frame (e : env) (uid : Z) (message_text : string) (w : world) :
  let w' := snd (TelegramBot.handle_url e uid message_text w) in
  (user_sessions w' = user_sessions w
   \/ exists s, user_sessions w' = <[uid := s]> (user_sessions w))
  /\ (forall u, u <> uid -> user_sessions w' !! u = user_sessions w !! u)
  /\ tmp_dirs w' = tmp_dirs w.
Proof.
  intros w'.
  assert (Hmain :
    (user_sessions w' = user_sessions w
     \/ exists s, user_sessions w' = <[uid := s]> (user_sessions w))
    /\ tmp_dirs w' = tmp_dirs w).
  { subst w'. unfold TelegramBot.handle_url.
    destruct (MediaDownloader.get_platform _ _ _) as [[p|]|];
      [destruct (String.eqb p "")| |split; [now left | reflexivity]];
      try (match goal with |- context [call e ?st ?ev ?w1] =>
             destruct (call_frame e st ev w1) as [Hu Ht]; rewrite Hu, Ht end;
           split; [now left | reflexivity]).
    unfold bind, try_except, TelegramBot.get_video_info, bind, log, ret, store_session, call.
    destruct (raises e AtReplyProcessing); [split; [now left | reflexivity]|].
    unfold log. cbv beta iota.
    destruct (extract_info e _) as [i|].
    - destruct (raises e AtEditMenu); [destruct (raises e AtEditError)|]; simpl;
        (split; [right; eexists; reflexivity | reflexivity]).
    - destruct (raises e AtEditExtractFailed); [destruct (raises e AtEditError)|]; simpl;
        (split; [now left | reflexivity]). }
  destruct Hmain as [Hs Ht]. split; [exact Hs|]. split; [|exact Ht].
  intros u Hu. destruct Hs as [-> | [s ->]]; [reflexivity | now apply lookup_insert_ne].
Qed.

(** X21: when [urlparse] raises on the stripped message text, the
    exception leaves [handle_url]: the classifier is called before the
    [try] statement, so nothing is sent to the user, no session is
    created or removed, and the media source is not asked. *)
Theorem handle_url_urlparse_raises (e : env) (uid : Z) (message_text : string) (w : world) :
  netloc_of e (str_strip e message_text) = None ->
  MediaDownloader.get_platform (netloc_of e) (str_lower e) (str_strip e message_text) = Raised
  /\ TelegramBot.handle_url e uid message_text w = (Raised, w).
Proof.
  intros Hraise.
  assert (Hplat : MediaDownloader.get_platform (netloc_of e) (str_lower e)
                    (str_strip e message_text) = Raised).
  { unfold MediaDownloader.get_platform. now rewrite Hraise. }
  split; [exact Hplat|].
  unfold TelegramBot.handle_url. now rewrite Hplat.
Qed.

Lemma handle_url_urlparse_raises_witness :
  netloc_of Scenario.env_ok (str_strip Scenario.env_ok "https://[vimeo.com/") = None
  /\ TelegramBot.handle_url Scenario.env_ok 7 "https://[vimeo.com/" Scenario.started
     = (Raised, Scenario.started).
Proof.
  split; [reflexivity|].
  exact (proj2 (handle_url_urlparse_raises Scenario.env_ok 7 "https://[vimeo.com/"
                  Scenario.started eq_refl)).
Defined.
